(** * GenerativeRL: batch-shape composition of [FlowModel] sampling and the
      [MinariDataset] helpers

    A shallow embedding of
    - [grl/generative_models/normalizing_flow/flow.py]
      ([FlowModel.__init__], [FlowModel.sample],
      [FlowModel.sample_forward_process]) and
    - [grl/datasets/minari_dataset.py]
      ([MinariDataset.__getitem__], [MinariDataset.__len__],
      [MinariDataset.return_range]).

    Python integers are [Z]; a tensor is its [torch.Size] together with its
    elements in row-major order; a raised exception is the [Raise] case of
    [result].  The numerical solvers, the registry [get_solver], the Gaussian
    sampler and the network are collaborators of the code and enter as
    section variables or record fields. *)

From Stdlib Require Import ZArith Lia.
From stdpp Require Import base option list strings gmap.

Open Scope Z_scope.

(** ** Exceptions and fallible computations *)

Inductive exn : Type :=
| AssertionError (msg : string)
| NotImplementedError (msg : string)
| AttributeError (attr : string)
| KeyError (key : string)
| RuntimeError (msg : string)
| IndexError
| TypeError
| ValueError
| ZeroDivisionError.

Inductive result (A : Type) : Type :=
| Ok (a : A)
| Raise (e : exn).

Arguments Ok {A} a.
Arguments Raise {A} e.

Definition bind {A B : Type} (r : result A) (k : A -> result B) : result B :=
  match r with
  | Ok a => k a
  | Raise e => Raise e
  end.

Notation "'let*' x ':=' e 'in' k" := (bind e (fun x => k))
  (at level 10, x name, e at level 100, k at level 200, only parsing).

Definition is_ok {A : Type} (r : result A) : bool :=
  match r with Ok _ => true | Raise _ => false end.

(** [assert cond, msg] *)
Definition assert (cond : bool) (msg : string) : result unit :=
  if cond then Ok tt else Raise (AssertionError msg).

(** ** The fragment of torch the two files use *)

Module Torch.

(** Number of elements of a tensor of the given size. *)
Definition numel (s : list Z) : Z := foldr Z.mul 1 s.

(** Integer tensors built by [torch.tensor(<tuple of ints>)].  An empty
    sequence gives a tensor of the default floating dtype, any other
    sequence of ints an int64 one. *)
Record IntTensor : Type := mkIntTensor {
  it_shape : list Z;
  it_vals : list Z;
  it_floating : bool
}.

(** [torch.tensor(seq)] for a flat sequence of ints. *)
Definition tensor (seq : list Z) : IntTensor :=
  {| it_shape := [Z.of_nat (length seq)];
     it_vals := seq;
     it_floating := match seq with [] => true | _ => false end |}.

(** [torch.prod(t)]: a 0-dim tensor of the same dtype. *)
Definition prod (t : IntTensor) : IntTensor :=
  {| it_shape := [];
     it_vals := [foldr Z.mul 1 (it_vals t)];
     it_floating := it_floating t |}.

(** The integer held by a 0-dim tensor. *)
Definition item (t : IntTensor) : Z := hd 0 (it_vals t).

(** [torch.Size(a) == torch.Size(b)] *)
Definition size_eqb (a b : list Z) : bool := bool_decide (a = b).

(** The size inference of [view]/[reshape]: at most one entry of the
    requested size may be [-1]; it is computed from the element count. *)
Fixpoint infer_scan (sizes : list Z) (newsize : Z) (infer : bool)
  : result (Z * bool) :=
  match sizes with
  | [] => Ok (newsize, infer)
  | d :: rest =>
      if d =? -1 then
        if infer then Raise (RuntimeError "only one dimension can be inferred")
        else infer_scan rest newsize true
      else if 0 <=? d then infer_scan rest (newsize * d) infer
      else Raise (RuntimeError "invalid shape dimension")
  end.

Definition infer_size (sizes : list Z) (n : Z) : result (list Z) :=
  let* scan := infer_scan sizes 1 false in
  let newsize := scan.1 in
  let infer := scan.2 in
  if (n =? newsize) || (infer && (0 <? newsize) && (n mod newsize =? 0)) then
    if infer then
      if newsize =? 0 then
        Raise (RuntimeError "cannot reshape tensor of 0 elements: the unspecified dimension is ambiguous")
      else Ok ((fun d => if d =? -1 then n / newsize else d) <$> sizes)
    else Ok sizes
  else Raise (RuntimeError "shape is invalid for input size").

Section Tensors.
Context {scalar : Type}.

Record Tensor : Type := mkTensor {
  shape : list Z;
  data : list scalar
}.

(** A tensor is well formed when its sizes are non-negative and it holds
    as many elements as its size says. *)
Definition wf (t : Tensor) : Prop :=
  Forall (fun d => 0 <= d) (shape t) /\
  Z.of_nat (length (data t)) = numel (shape t).

(** Elements per entry along the leading axis. *)
Definition stride0 (t : Tensor) : nat := Z.to_nat (numel (tail (shape t))).

(** The elements of the [i]-th entry along the leading axis. *)
Definition row (t : Tensor) (i : nat) : list scalar :=
  take (stride0 t) (drop (i * stride0 t) (data t)).

(** The entry of [t] at position [i] along the leading axis, as a tensor. *)
Definition entry (t : Tensor) (i : Z) : Tensor :=
  {| shape := tail (shape t); data := row t (Z.to_nat i) |}.

Definition rows (t : Tensor) : list (list scalar) :=
  match shape t with
  | [] => []
  | n :: _ => row t <$> seq 0 (Z.to_nat n)
  end.

(** [t.shape[0]] *)
Definition shape0 (t : Tensor) : result Z :=
  match shape t with
  | [] => Raise IndexError
  | n :: _ => Ok n
  end.

(** [len(t)] of a tensor with at least one axis. *)
Definition leading_size (t : Tensor) : Z := hd 0 (shape t).

(** [t[i]] for a Python int [i]; negative indices count from the end. *)
Definition getitem (t : Tensor) (i : Z) : result Tensor :=
  match shape t with
  | [] => Raise IndexError
  | n :: rest =>
      let j := if i <? 0 then i + n else i in
      if (0 <=? j) && (j <? n)
      then Ok {| shape := rest; data := row t (Z.to_nat j) |}
      else Raise IndexError
  end.

(** [torch.repeat_interleave(t, repeats, dim=0)] with a 0-dim [repeats]. *)
Definition repeat_interleave (t : Tensor) (repeats : IntTensor)
  : result Tensor :=
  match shape t with
  | [] => Raise IndexError
  | n :: rest =>
      if it_floating repeats then
        Raise (RuntimeError "repeats has to be Long tensor")
      else if item repeats <? 0 then
        Raise (RuntimeError "repeats can not be negative")
      else
        let k := Z.to_nat (item repeats) in
        Ok {| shape := n * item repeats :: rest;
              data := concat ((fun r => concat (replicate k r)) <$> rows t) |}
  end.

(** [t.reshape] to the requested sizes: the elements keep their row-major
    order. *)
Definition reshape (t : Tensor) (sizes : list Z) : result Tensor :=
  let* s := infer_size sizes (numel (shape t)) in
  Ok {| shape := s; data := data t |}.

(** [t.squeeze(dim)]: drops axis [dim] when its size is 1, and is the
    identity otherwise; [dim] out of range raises. *)
Definition squeeze (t : Tensor) (dim : Z) : result Tensor :=
  let r := Z.max (Z.of_nat (length (shape t))) 1 in
  if (dim <? - r) || (r <=? dim) then Raise IndexError
  else
    let d := Z.to_nat (if dim <? 0 then dim + r else dim) in
    match shape t !! d with
    | Some 1 => Ok {| shape := delete d (shape t); data := data t |}
    | _ => Ok t
    end.

End Tensors.

End Torch.

(** ** [grl/generative_models/normalizing_flow/flow.py] *)

Module Flow.
Import Torch.

(** The [batch_size] argument when it is not [None]: an [int], a
    [torch.Size]/tuple/list of ints, or a value of another type. *)
Inductive BatchSize : Type :=
| BInt (n : Z)
| BSeq (l : list Z)
| BOther.

(** The per-sample shape in [config.x_size]: an [int], a tuple/list/
    [torch.Size] of ints, or a value of another type. *)
Inductive XShape : Type :=
| XInt (n : Z)
| XSeq (l : list Z)
| XInvalid.

(** [config.x_size]: one shape, or a mapping from field name to shape. *)
Inductive XSize : Type :=
| XPlain (x : XShape)
| XMap (m : gmap string XShape).

(** [isinstance(solver, ODESolver)], [isinstance(solver,
    DictTensorODESolver)], or neither (for instance [SDESolver],
    [DPMSolver]). *)
Inductive SolverKind : Type :=
| ODESolver
| DictTensorODESolver
| OtherSolver.

Section WithCollaborators.
Context {scalar Model Param Process Kwargs ModelConfig : Type}.

Local Abbreviation Tensor := (@Tensor scalar).

(** What a solver may return: a [torch.Tensor], a [TensorDict], a
    [treetensor.torch.Tensor] (its fields in key order), or anything
    else. *)
Inductive Data : Type :=
| DTensor (t : Tensor)
| DTensorDict
| DTreeTensor (fields : list (string * Tensor))
| DOther.

(** The drift handed to [solver.integrate]: the closure
    [drift(t, x) = self.model(t, x, condition)], or
    [self.diffusion_process.reverse_ode(function, function_type,
    condition).drift]. *)
Inductive Drift : Type :=
| ModelDrift (model : Model) (condition : option Tensor)
| ReverseOdeDrift (process : Process) (function : Model)
    (function_type : string) (condition : option Tensor).

(** One call of [solver.integrate]: its keyword arguments ([None] for a
    keyword that is not passed) and whether gradient tracking was enabled
    when it ran. *)
Record IntegrateCall : Type := mkIntegrateCall {
  ic_drift : Drift;
  ic_x0 : Tensor;
  ic_t_span : option Tensor;
  ic_adjoint_params : option (list Param);
  ic_batch_size : option Z;
  ic_x_size : option (list Z);
  ic_grad_enabled : bool
}.

Record Solver : Type := mkSolver {
  solver_kind : SolverKind;
  integrate : IntegrateCall -> result Data
}.

(** [EasyDict] with [type] and [args]. *)
Record SolverConfig : Type := mkSolverConfig {
  solver_type : string;
  solver_args : Kwargs
}.

(** The construction config; [hasattr(config, name)] is [Some]. *)
Record Config : Type := mkConfig {
  cfg_x_size : XSize;
  cfg_device : string;
  cfg_use_tree_tensor : option bool;
  cfg_model : ModelConfig;
  cfg_solver : option SolverConfig
}.

(** The attributes of a [FlowModel] object.  [__init__] sets [solver]
    only when the config has one, and sets neither [diffusion_process]
    nor [model_type], which [sample_forward_process] reads. *)
Record FlowModel : Type := mkFlowModel {
  config : Config;
  x_size : XSize;
  device : string;
  gaussian_generator : Z -> result Tensor;
  model : Model;
  solver : option Solver;
  diffusion_process : option Process;
  model_type : option string
}.

(** The ambient gradient mode and the calls of [solver.integrate] so far. *)
Record World : Type := mkWorld {
  grad_enabled : bool;
  integrate_calls : list IntegrateCall
}.

(** Computations that may raise, read and set the gradient mode, and call
    the solver. *)
Definition M (A : Type) : Type := World -> World * result A.

Definition lift {A : Type} (r : result A) : M A := fun w => (w, r).

Definition bindM {A B : Type} (m : M A) (k : A -> M B) : M B :=
  fun w =>
    match m w with
    | (w', Ok a) => k a w'
    | (w', Raise e) => (w', Raise e)
    end.

(** [with torch.no_grad(): body]; the previous mode is restored on exit,
    also when [body] raises. *)
Definition no_grad {A : Type} (body : M A) : M A :=
  fun w =>
    let '(w', r) :=
      body {| grad_enabled := false; integrate_calls := integrate_calls w |} in
    ({| grad_enabled := grad_enabled w;
        integrate_calls := integrate_calls w' |}, r).

(** [solver.integrate(...)] under the current gradient mode. *)
Definition call_integrate (s : Solver) (kwargs : bool -> IntegrateCall)
  : M Data :=
  fun w =>
    let call := kwargs (grad_enabled w) in
    ({| grad_enabled := grad_enabled w;
        integrate_calls := integrate_calls w ++ [call] |},
     integrate s call).

Variable find_parameters : Model -> list Param.
Variable get_solver : SolverConfig -> result Solver.
Variable gaussian_random_variable :
  XSize -> string -> bool -> result (Z -> result Tensor).
Variable IntrinsicModel : ModelConfig -> result Model.

(** [FlowModel.__init__]: the sampler (lines 43-47), the network (line
    49) and, when the config has one, the solver (lines 50-51) are built in
    this order, and each of the three may raise. *)
Definition __init__ (config : Config) : result FlowModel :=
  let* gaussian_generator :=
    gaussian_random_variable (cfg_x_size config) (cfg_device config)
      (match cfg_use_tree_tensor config with
       | Some b => b
       | None => false
       end) in
  let* model := IntrinsicModel (cfg_model config) in
  match cfg_solver config with
  | Some sc =>
      let* s := get_solver sc in
      Ok {| config := config; x_size := cfg_x_size config;
            device := cfg_device config;
            gaussian_generator := gaussian_generator; model := model;
            solver := Some s; diffusion_process := None;
            model_type := None |}
  | None =>
      Ok {| config := config; x_size := cfg_x_size config;
            device := cfg_device config;
            gaussian_generator := gaussian_generator; model := model;
            solver := None; diffusion_process := None;
            model_type := None |}
  end.

(** The arguments of [sample] and [sample_forward_process]. *)
Record Args : Type := mkArgs {
  t_span : option Tensor;
  batch_size : option BatchSize;
  x_0 : option Tensor;
  condition : option Tensor;
  with_grad : bool;
  solver_config : option SolverConfig
}.

(** Lines 110-122: the extra batch size as a tensor. *)
Definition extra_batch_size (batch_size : option BatchSize)
  : result IntTensor :=
  match batch_size with
  | None => Ok (tensor [1])
  | Some (BInt n) => Ok (tensor [n])
  | Some (BSeq l) => Ok (tensor l)
  | Some BOther => Raise (AssertionError "Invalid batch size")
  end.

(** Lines 124-134: the data batch size. *)
Definition data_batch_size (x_0 condition : option Tensor) : result Z :=
  match x_0, condition with
  | Some x, Some c =>
      let* n := shape0 x in
      let* m := shape0 c in
      let* _ := assert (n =? m)
        "The batch size of x_0 and condition must be the same" in
      shape0 x
  | Some x, None => shape0 x
  | None, Some c => shape0 c
  | None, None => Ok 1
  end.

(** Lines 136-142: the per-call solver, or the model-level default. *)
Definition select_solver (self : FlowModel)
    (solver_config : option SolverConfig) : result Solver :=
  match solver_config with
  | Some sc => get_solver sc
  | None =>
      match solver self with
      | Some s => Ok s
      | None =>
          Raise (AssertionError
                   "solver must be specified in config or solver_config")
      end
  end.

(** Lines 150-163: [x_0[0].shape] must be the configured [x_size]. *)
Definition check_x_0_shape (self : FlowModel) (x0 : Tensor) : result unit :=
  match x_size self with
  | XPlain (XInt n) =>
      let* first := getitem x0 0 in
      assert (size_eqb [n] (shape first))
        "The shape of x_0 must be the same as the x_size that is specified in the config"
  | XPlain (XSeq l) =>
      let* first := getitem x0 0 in
      assert (size_eqb l (shape first))
        "The shape of x_0 must be the same as the x_size that is specified in the config"
  | _ => Raise (AssertionError "Invalid x_size")
  end.

(** Lines 144-166: the initial state batch [x]. *)
Definition initial_state (self : FlowModel) (ebs : IntTensor) (n : Z)
    (x_0 : option Tensor) : result Tensor :=
  match x_0 with
  | None => gaussian_generator self (item (prod ebs) * n)
  | Some x0 =>
      let* _ := check_x_0_shape self x0 in
      repeat_interleave x0 (prod ebs)
  end.

(** Lines 168-172: the condition, repeated like the state. *)
Definition expand_condition (ebs : IntTensor) (condition : option Tensor)
  : result (option Tensor) :=
  match condition with
  | Some c =>
      let* c' := repeat_interleave c (prod ebs) in
      Ok (Some c')
  | None => Ok None
  end.

(** What lines 107-172 compute before the solver runs, in the order of the
    code: extra batch size, data batch size, solver, state, condition. *)
Record Prepared : Type := mkPrepared {
  p_extra_batch_size : IntTensor;
  p_data_batch_size : Z;
  p_solver : Solver;
  p_x : Tensor;
  p_condition : option Tensor
}.

Definition prepare (self : FlowModel) (a : Args) : result Prepared :=
  let* ebs := extra_batch_size (batch_size a) in
  let* n := data_batch_size (x_0 a) (condition a) in
  let* s := select_solver self (solver_config a) in
  let* x := initial_state self ebs n (x_0 a) in
  let* c := expand_condition ebs (condition a) in
  Ok {| p_extra_batch_size := ebs; p_data_batch_size := n;
        p_solver := s; p_x := x; p_condition := c |}.

(** Lines 198-202: the drift of the reverse process; both attributes are
    read from [self]. *)
Definition reverse_ode_drift (self : FlowModel)
    (condition : option Tensor) : result Drift :=
  match diffusion_process self with
  | None => Raise (AttributeError "diffusion_process")
  | Some process =>
      match model_type self with
      | None => Raise (AttributeError "model_type")
      | Some ty => Ok (ReverseOdeDrift process (model self) ty condition)
      end
  end.

(** Lines 180-185 and 188-193: the keyword arguments on the direct-drift
    path, the same in both gradient modes. *)
Definition ode_kwargs (self : FlowModel) (a : Args) (p : Prepared)
    (grad : bool) : IntegrateCall :=
  {| ic_drift := ModelDrift (model self) (p_condition p);
     ic_x0 := p_x p;
     ic_t_span := t_span a;
     ic_adjoint_params := Some (find_parameters (model self));
     ic_batch_size := None;
     ic_x_size := None;
     ic_grad_enabled := grad |}.

(** Lines 197-207 and 210-220: the keyword arguments on the structured
    reverse-process path, the same in both gradient modes. *)
Definition dict_kwargs (a : Args) (p : Prepared) (drift : Drift)
    (grad : bool) : IntegrateCall :=
  {| ic_drift := drift;
     ic_x0 := p_x p;
     ic_t_span := t_span a;
     ic_adjoint_params := None;
     ic_batch_size :=
       Some (item (prod (p_extra_batch_size p)) * p_data_batch_size p);
     ic_x_size := Some (shape (p_x p));
     ic_grad_enabled := grad |}.

(** Lines 174-224: the call of the solver. *)
Definition run_solver (self : FlowModel) (a : Args) (p : Prepared)
  : M Data :=
  match solver_kind (p_solver p) with
  | ODESolver =>
      let call := call_integrate (p_solver p) (ode_kwargs self a p) in
      if with_grad a then call else no_grad call
  | DictTensorODESolver =>
      let call :=
        bindM (lift (reverse_ode_drift self (p_condition p))) (fun drift =>
        call_integrate (p_solver p) (dict_kwargs a p drift)) in
      if with_grad a then call else no_grad call
  | OtherSolver =>
      match cfg_solver (config self) with
      | None => lift (Raise (AttributeError "solver"))
      | Some sc =>
          lift (Raise (NotImplementedError
                         ("Solver type " ++ solver_type sc
                          ++ " is not implemented")))
      end
  end.

(** Lines 228-257 (and 278-307 with [self.x_size[key]]): the flat batch
    axis becomes the extra-batch axes followed by the data-batch axis. *)
Definition reshape_batch (xs : XShape) (ebs : IntTensor) (n : Z)
    (data : Tensor) : result Tensor :=
  if bool_decide (length (it_shape ebs) = 0%nat) then
    match xs with
    | XInt d => reshape data [-1; item ebs; n; d]
    | XSeq l => reshape data ([-1; item ebs; n] ++ l)
    | XInvalid => Raise (AssertionError "Invalid x_size")
    end
  else
    match xs with
    | XInt d => reshape data ([-1] ++ it_vals ebs ++ [n; d])
    | XSeq l => reshape data ([-1] ++ it_vals ebs ++ [n] ++ l)
    | XInvalid => Raise (AssertionError "Invalid x_size")
    end.

(** Lines 260-273 (and 310-323): the axes the caller did not ask for are
    squeezed. *)
Definition squeeze_batch (a : Args) (ebs : IntTensor) (data : Tensor)
  : result Tensor :=
  match batch_size a with
  | None =>
      match x_0 a, condition a with
      | None, None =>
          let* data := squeeze data 1 in
          squeeze data 1
      | _, _ => squeeze data 1
      end
  | Some _ =>
      match x_0 a, condition a with
      | None, None =>
          squeeze data (1 + Z.of_nat (length (it_shape ebs)))
      | _, _ => Ok data
      end
  end.

(** [self.x_size] as the tensor branch tests it. *)
Definition x_size_plain (xs : XSize) : XShape :=
  match xs with
  | XPlain x => x
  | XMap _ => XInvalid
  end.

(** [self.x_size[key]] *)
Definition x_size_item (xs : XSize) (key : string) : result XShape :=
  match xs with
  | XPlain _ => Raise TypeError
  | XMap m =>
      match m !! key with
      | Some x => Ok x
      | None => Raise (KeyError key)
      end
  end.

(** [for key in data.keys(): data[key] = ...], in key order. *)
Fixpoint for_keys (body : string -> Tensor -> result Tensor)
    (fields : list (string * Tensor)) : result (list (string * Tensor)) :=
  match fields with
  | [] => Ok []
  | (key, v) :: rest =>
      let* v' := body key v in
      let* rest' := for_keys body rest in
      Ok ((key, v') :: rest')
  end.

(** Lines 226-327: the inverse composition on the solver's result. *)
Definition inverse_composition (self : FlowModel) (a : Args) (p : Prepared)
    (data : Data) : result Data :=
  match data with
  | DTensor t =>
      let* t := reshape_batch (x_size_plain (x_size self))
                  (p_extra_batch_size p) (p_data_batch_size p) t in
      let* t := squeeze_batch a (p_extra_batch_size p) t in
      Ok (DTensor t)
  | DTensorDict => Raise (NotImplementedError "Not implemented")
  | DTreeTensor fields =>
      let* fields :=
        for_keys (fun key t =>
          let* xs := x_size_item (x_size self) key in
          let* t := reshape_batch xs (p_extra_batch_size p)
                      (p_data_batch_size p) t in
          squeeze_batch a (p_extra_batch_size p) t) fields in
      Ok (DTreeTensor fields)
  | DOther => Raise (NotImplementedError "Not implemented")
  end.

(** [FlowModel.sample_forward_process].  Lines 107-108 move [t_span] to
    the device of the model, which leaves its contents as they are. *)
Definition sample_forward_process (self : FlowModel) (a : Args) : M Data :=
  bindM (lift (prepare self a)) (fun p =>
  bindM (run_solver self a p) (fun data =>
  lift (inverse_composition self a p data))).

(** [data[i]] on what [sample_forward_process] returns. *)
Definition getitem_data (d : Data) (i : Z) : result Data :=
  match d with
  | DTensor t =>
      let* t := getitem t i in
      Ok (DTensor t)
  | DTreeTensor fields =>
      let* fields := for_keys (fun _ t => getitem t i) fields in
      Ok (DTreeTensor fields)
  | DTensorDict | DOther => Raise TypeError
  end.

(** [FlowModel.sample] *)
Definition sample (self : FlowModel) (a : Args) : M Data :=
  bindM (sample_forward_process self a) (fun data =>
  lift (getitem_data data (-1))).

(** *** Notions the statements below use *)

(** The model with another default solver attribute. *)
Definition with_default_solver (self : FlowModel) (s : option Solver)
  : FlowModel :=
  {| config := config self; x_size := x_size self; device := device self;
     gaussian_generator := gaussian_generator self; model := model self;
     solver := s; diffusion_process := diffusion_process self;
     model_type := model_type self |}.

(** The data batch size in the words of the specification: [len(x0)] if
    [x0] is given, else [len(condition)] if [condition] is given, else 1. *)
Definition spec_data_batch_size (x_0 condition : option Tensor) : Z :=
  match x_0 with
  | Some x => leading_size x
  | None =>
      match condition with
      | Some c => leading_size c
      | None => 1
      end
  end.

(** The extra batch shape the caller asked for: [(1,)] when [batch_size]
    is absent, [(n,)] for an int, the sequence itself otherwise. *)
Definition requested_extra_shape (batch_size : option BatchSize) : list Z :=
  match batch_size with
  | None => [1]
  | Some (BInt n) => [n]
  | Some (BSeq l) => l
  | Some BOther => []
  end.

(** The calls of [solver.integrate] a computation adds to the log. *)
Definition new_calls (before after : World) : list IntegrateCall :=
  drop (length (integrate_calls before)) (integrate_calls after).

(** A solver on the direct-drift path that returns a flat tensor holding
    [T] snapshots of the state it was started from. *)
Definition trajectory_solver (T : Z) (s : Solver) : Prop :=
  solver_kind s = ODESolver /\
  forall call, exists traj,
    integrate s call = Ok (DTensor traj) /\
    shape traj = T :: shape (ic_x0 call).

(** A Gaussian sampler that returns [batch_size] samples of the given
    per-sample shape. *)
Definition sampler_of_shape (self : FlowModel) (state_shape : list Z)
  : Prop :=
  forall n, exists t,
    gaussian_generator self n = Ok t /\ shape t = n :: state_shape.

(** The data batch of a call: a given [x_0] has [n] rows of the state shape,
    a given condition has [n] rows, and with neither [n] is 1. *)
Definition data_rows (n : Z) (state_shape : list Z)
    (x_0 condition : option Tensor) : Prop :=
  match x_0, condition with
  | Some x, Some c => shape x = n :: state_shape /\ shape0 c = Ok n
  | Some x, None => shape x = n :: state_shape
  | None, Some c => shape0 c = Ok n
  | None, None => n = 1
  end.

(** The call returns a flat tensor of the given shape. *)
Definition returns_shape (r : result Data) (s : list Z) : Prop :=
  exists t, r = Ok (DTensor t) /\ shape t = s.

(** The call hands the model's full parameter list to the solver: it adds
    one call of [solver.integrate], whose [adjoint_params] is
    [find_parameters(self.model)]. *)
Definition integrates_with_parameters (self : FlowModel) (a : Args)
    (w : World) : Prop :=
  exists call,
    new_calls w (sample_forward_process self a w).1 = [call] /\
    ic_adjoint_params call = Some (find_parameters (model self)).

(** The model with another Gaussian sampler. *)
Definition with_gaussian_generator (self : FlowModel)
    (g : Z -> result Tensor) : FlowModel :=
  {| config := config self; x_size := x_size self; device := device self;
     gaussian_generator := g; model := model self;
     solver := solver self; diffusion_process := diffusion_process self;
     model_type := model_type self |}.

(** The axes a call keeps: time; the extra batch axes when [batch_size] is
    given; the data batch axis when [x_0] or [condition] is given; the
    state shape. *)
Definition kept_shape (a : Args) (T n : Z) (state_shape : list Z) : list Z :=
  T :: match batch_size a with
       | None => []
       | Some _ => requested_extra_shape (batch_size a)
       end
    ++ match x_0 a, condition a with
       | None, None => []
       | _, _ => [n]
       end
    ++ state_shape.

End WithCollaborators.

End Flow.

(** ** [grl/datasets/minari_dataset.py] *)

Module Minari.
Import Torch.

(** Python's [a % b] on ints: the result has the sign of [b]. *)
Definition py_mod (a b : Z) : result Z :=
  if b =? 0 then Raise ZeroDivisionError else Ok (a mod b).

(** [sum(lengths)] *)
Definition sum (l : list Z) : Z := foldr Z.add 0 l.

Section Dataset.
Context {scalar : Type}.

Local Abbreviation Tensor := (@Tensor scalar).

(** The attributes of a [MinariDataset] object; [fake_actions] and
    [fake_next_actions] are attached from outside, if at all. *)
Record MinariDataset : Type := mkMinariDataset {
  states : Tensor;
  actions : Tensor;
  next_states : Tensor;
  rewards : Tensor;
  is_finished : Tensor;
  len : Z;
  fake_actions : option Tensor;
  fake_next_actions : option Tensor
}.

(** What [__init__] establishes: [self.len = self.states.shape[0]], and
    the five tensors come from one transition table, so they share their
    leading size; fake actions, when attached, have one entry per
    transition. *)
Definition consistent (self : MinariDataset) : Prop :=
  shape0 (states self) = Ok (len self) /\
  shape0 (actions self) = Ok (len self) /\
  shape0 (next_states self) = Ok (len self) /\
  shape0 (rewards self) = Ok (len self) /\
  shape0 (is_finished self) = Ok (len self) /\
  (forall t, fake_actions self = Some t -> shape0 t = Ok (len self)) /\
  (forall t, fake_next_actions self = Some t -> shape0 t = Ok (len self)).

(** A value of the dict [__getitem__] returns: a tensor, or the float
    literal [0.0]. *)
Inductive Value : Type :=
| VTensor (t : Tensor)
| VFloatZero.

(** What an optional attribute contributes at position [i]. *)
Definition entry_or_zero (t : option Tensor) (i : Z) : Value :=
  match t with
  | Some t => VTensor (entry t i)
  | None => VFloatZero
  end.

(** [self.<attr>[index % self.len]] *)
Definition at_index (t : Tensor) (self : MinariDataset) (index : Z)
  : result Value :=
  let* i := py_mod index (len self) in
  let* v := getitem t i in
  Ok (VTensor v).

(** [self.<attr>[index % self.len] if hasattr(self, <attr>) else 0.0] *)
Definition at_index_or_zero (t : option Tensor) (self : MinariDataset)
    (index : Z) : result Value :=
  match t with
  | Some t => at_index t self index
  | None => Ok VFloatZero
  end.

(** [MinariDataset.__getitem__] *)
Definition __getitem__ (self : MinariDataset) (index : Z)
  : result (gmap string Value) :=
  let* s := at_index (states self) self index in
  let* a := at_index (actions self) self index in
  let* r := at_index (rewards self) self index in
  let* s_ := at_index (next_states self) self index in
  let* d := at_index (is_finished self) self index in
  let* fake_a := at_index_or_zero (fake_actions self) self index in
  let* fake_a_ := at_index_or_zero (fake_next_actions self) self index in
  Ok (<["s" := s]> (<["a" := a]> (<["r" := r]> (<["s_" := s_]>
      (<["d" := d]> (<["fake_a" := fake_a]>
      (<["fake_a_" := fake_a_]> empty))))))).

(** [MinariDataset.__len__] *)
Definition __len__ (self : MinariDataset) : Z := len self.

End Dataset.

Section ReturnRange.
Context {float : Type}.
Variable float_zero : float.
Variable float_add : float -> float -> float.
Variable float_lt : float -> float -> bool.

(** The loop state of [return_range]. *)
Record Episodes : Type := mkEpisodes {
  returns : list float;
  lengths : list Z;
  ep_ret : float;
  ep_len : Z
}.

Definition start : Episodes :=
  {| returns := []; lengths := []; ep_ret := float_zero; ep_len := 0 |}.

(** One iteration of [for r, d in zip(rewards, terminals)]. *)
Definition step (max_episode_steps : Z) (st : Episodes) (rd : float * bool)
  : Episodes :=
  let ep_ret := float_add (ep_ret st) rd.1 in
  let ep_len := ep_len st + 1 in
  if rd.2 || (ep_len =? max_episode_steps) then
    {| returns := returns st ++ [ep_ret];
       lengths := lengths st ++ [ep_len];
       ep_ret := float_zero; ep_len := 0 |}
  else
    {| returns := returns st; lengths := lengths st;
       ep_ret := ep_ret; ep_len := ep_len |}.

(** The loop, followed by [lengths.append(ep_len)]. *)
Definition episodes (rewards : list float) (terminals : list bool)
    (max_episode_steps : Z) : Episodes :=
  let st := foldl (step max_episode_steps) start (zip rewards terminals) in
  {| returns := returns st; lengths := lengths st ++ [ep_len st];
     ep_ret := ep_ret st; ep_len := ep_len st |}.

(** [min(xs)] and [max(xs)]: the first smallest, the first largest. *)
Definition py_min (xs : list float) : result float :=
  match xs with
  | [] => Raise ValueError
  | x :: rest => Ok (foldl (fun m y => if float_lt y m then y else m) x rest)
  end.

Definition py_max (xs : list float) : result float :=
  match xs with
  | [] => Raise ValueError
  | x :: rest => Ok (foldl (fun m y => if float_lt m y then y else m) x rest)
  end.

(** [MinariDataset.return_range(dataset, max_episode_steps)], on
    [dataset["rewards"]] and [dataset["terminals"]]. *)
Definition return_range (rewards : list float) (terminals : list bool)
    (max_episode_steps : Z) : result (float * float) :=
  let st := episodes rewards terminals max_episode_steps in
  let* _ := assert (sum (lengths st) =? Z.of_nat (length rewards))
              EmptyString in
  let* lo := py_min (returns st) in
  let* hi := py_max (returns st) in
  Ok (lo, hi).

End ReturnRange.

(** Python's [needle in haystack] on strings. *)
Fixpoint contains (needle haystack : string) : bool :=
  String.prefix needle haystack ||
  match haystack with
  | EmptyString => false
  | String _ rest => contains needle rest
  end.

(** Line 74 of [MinariDataset.__init__]: the reward scheme of a dataset. *)
Definition reward_tune (env_id : string) : string :=
  if contains "antmaze" env_id then "iql_antmaze" else "iql_locomotion".

Section RewardTuning.
Context {float : Type}.
Variable float_zero : float.
Variable float_add : float -> float -> float.
Variable float_lt : float -> float -> bool.
Variable float_sub : float -> float -> float.
Variable float_mul : float -> float -> float.
Variable float_div : float -> float -> float.
Variable float_mean : list float -> float.
Variable float_std : list float -> float.
Variable literal : string -> float.

(** Lines 74-87 of [MinariDataset.__init__]: the rewards as stored in
    [self.rewards].  [reward] is the reward column of the transition table
    and [terminals] its terminal flags; [return_range(data, 1000)] reads the
    same two columns. *)
Definition tune_reward (env_id : string) (reward : list float)
    (terminals : list bool) : result (list float) :=
  let reward_tune := reward_tune env_id in
  if String.eqb reward_tune "normalize" then
    Ok ((fun r => float_div (float_sub r (float_mean reward))
                    (float_std reward)) <$> reward)
  else if String.eqb reward_tune "iql_antmaze" then
    Ok ((fun r => float_sub r (literal "1.0")) <$> reward)
  else if String.eqb reward_tune "iql_locomotion" then
    let* range := return_range float_zero float_add float_lt reward
                    terminals 1000 in
    let min_ret := range.1 in
    let max_ret := range.2 in
    let reward := (fun r => float_div r (float_sub max_ret min_ret))
                    <$> reward in
    Ok ((fun r => float_mul r (literal "1000")) <$> reward)
  else if String.eqb reward_tune "cql_antmaze" then
    Ok ((fun r => float_mul (float_sub r (literal "0.5")) (literal "4.0"))
          <$> reward)
  else if String.eqb reward_tune "antmaze" then
    Ok ((fun r => float_mul (float_sub r (literal "0.25")) (literal "2.0"))
          <$> reward)
  else Ok reward.

End RewardTuning.

End Minari.

(** * Concrete inputs used to exercise the statements below *)

Module Examples.
Import Torch.

(** Rewards [1, 2, 3, 4, 5] with an episode end after the second one. *)
Definition ex_rewards : list Z := [1; 2; 3; 4; 5].
Definition ex_terminals : list bool := [false; true; false; false; false].

(** A dataset of three transitions with one-dimensional states, without
    fake actions. *)
Definition column (xs : list Z) : @Tensor Z :=
  {| shape := [Z.of_nat (length xs); 1]; data := xs |}.

Definition ex_dataset : @Minari.MinariDataset Z :=
  {| Minari.states := column [10; 11; 12];
     Minari.actions := column [20; 21; 22];
     Minari.next_states := column [11; 12; 13];
     Minari.rewards := column [1; 0; 1];
     Minari.is_finished := column [0; 0; 1];
     Minari.len := 3;
     Minari.fake_actions := None;
     Minari.fake_next_actions := None |}.

(** A flow model over integer-valued tensors: parameters are numbered,
    the registry knows two solver kinds, and both solvers return two
    snapshots of the state they start from. *)
Definition ex_find_parameters (_ : unit) : list Z := [101; 102].

Definition ex_integrate (call : @Flow.IntegrateCall Z unit Z unit)
  : result (@Flow.Data Z) :=
  Ok (Flow.DTensor
        {| shape := 2 :: shape (Flow.ic_x0 call);
           data := data (Flow.ic_x0 call) ++ data (Flow.ic_x0 call) |}).

Definition ex_ode_solver : @Flow.Solver Z unit Z unit :=
  {| Flow.solver_kind := Flow.ODESolver; Flow.integrate := ex_integrate |}.

Definition ex_dict_solver : @Flow.Solver Z unit Z unit :=
  {| Flow.solver_kind := Flow.DictTensorODESolver;
     Flow.integrate := ex_integrate |}.

Definition ex_get_solver (sc : @Flow.SolverConfig unit)
  : result (@Flow.Solver Z unit Z unit) :=
  if String.eqb (Flow.solver_type sc) "ODESolver" then Ok ex_ode_solver
  else if String.eqb (Flow.solver_type sc) "DictTensorODESolver"
  then Ok ex_dict_solver
  else Raise (KeyError (Flow.solver_type sc)).

Definition ex_gaussian (xs : Flow.XSize) (_ : string) (_ : bool) (n : Z)
  : result (@Tensor Z) :=
  match xs with
  | Flow.XPlain (Flow.XInt d) =>
      Ok {| shape := [n; d]; data := replicate (Z.to_nat (n * d)) 0 |}
  | _ => Raise TypeError
  end.

Definition ex_config (default : option (@Flow.SolverConfig unit))
  : @Flow.Config unit unit :=
  {| Flow.cfg_x_size := Flow.XPlain (Flow.XInt 4);
     Flow.cfg_device := "cpu";
     Flow.cfg_use_tree_tensor := None;
     Flow.cfg_model := tt;
     Flow.cfg_solver := default |}.

Definition ode_config : @Flow.SolverConfig unit :=
  {| Flow.solver_type := "ODESolver"; Flow.solver_args := tt |}.

Definition dict_config : @Flow.SolverConfig unit :=
  {| Flow.solver_type := "DictTensorODESolver"; Flow.solver_args := tt |}.

(** The object [FlowModel(config)] leaves behind for [x_size = 4]. *)
Definition ex_model (default : option (@Flow.SolverConfig unit))
    (s : option (@Flow.Solver Z unit Z unit))
  : @Flow.FlowModel Z unit Z unit unit unit :=
  {| Flow.config := ex_config default;
     Flow.x_size := Flow.XPlain (Flow.XInt 4);
     Flow.device := "cpu";
     Flow.gaussian_generator :=
       ex_gaussian (Flow.XPlain (Flow.XInt 4)) "cpu" false;
     Flow.model := tt;
     Flow.solver := s;
     Flow.diffusion_process := None;
     Flow.model_type := None |}.

(** The same object after a diffusion process and a model type were
    attached to it from outside. *)
Definition ex_model_attached (default : option (@Flow.SolverConfig unit))
    (s : option (@Flow.Solver Z unit Z unit))
  : @Flow.FlowModel Z unit Z unit unit unit :=
  {| Flow.config := ex_config default;
     Flow.x_size := Flow.XPlain (Flow.XInt 4);
     Flow.device := "cpu";
     Flow.gaussian_generator :=
       ex_gaussian (Flow.XPlain (Flow.XInt 4)) "cpu" false;
     Flow.model := tt;
     Flow.solver := s;
     Flow.diffusion_process := Some tt;
     Flow.model_type := Some "velocity_function" |}.

(** The factories the constructor calls: both succeed on every config. *)
Definition ex_gaussian_random_variable (xs : Flow.XSize) (dev : string)
    (tree : bool) : result (Z -> result (@Tensor Z)) :=
  Ok (ex_gaussian xs dev tree).

Definition ex_intrinsic_model (_ : unit) : result unit := Ok tt.

(** A model whose default solver is the direct-drift one. *)
Definition ode_model : @Flow.FlowModel Z unit Z unit unit unit :=
  ex_model (Some ode_config) (Some ex_ode_solver).

(** Models whose default solver is the structured one: as constructed, and
    with the two attributes attached. *)
Definition dict_model : @Flow.FlowModel Z unit Z unit unit unit :=
  ex_model (Some dict_config) (Some ex_dict_solver).

Definition dict_model_attached : @Flow.FlowModel Z unit Z unit unit unit :=
  ex_model_attached (Some dict_config) (Some ex_dict_solver).

Definition ex_world : @Flow.World Z unit Z unit :=
  {| Flow.grad_enabled := true; Flow.integrate_calls := [] |}.

(** [sample_forward_process(batch_size=..., x_0=..., condition=...,
    with_grad=...)] with the remaining arguments left at [None]. *)
Definition ex_args (bs : option Flow.BatchSize) (x0 c : option (@Tensor Z))
    (grad : bool) : @Flow.Args Z unit :=
  {| Flow.t_span := None; Flow.batch_size := bs; Flow.x_0 := x0;
     Flow.condition := c; Flow.with_grad := grad;
     Flow.solver_config := None |}.

(** The same call with a per-call solver configuration. *)
Definition ex_args_with_solver (sc : @Flow.SolverConfig unit)
  : @Flow.Args Z unit :=
  {| Flow.t_span := None; Flow.batch_size := None; Flow.x_0 := None;
     Flow.condition := None; Flow.with_grad := false;
     Flow.solver_config := Some sc |}.

(** Three samples of the state shape [(4,)], and conditions of shape
    [(2,)] for three and for two samples. *)
Definition ex_x0 : @Tensor Z :=
  {| shape := [3; 4]; data := [1; 2; 3; 4; 5; 6; 7; 8; 9; 10; 11; 12] |}.

Definition ex_condition3 : @Tensor Z :=
  {| shape := [3; 2]; data := [21; 22; 23; 24; 25; 26] |}.

Definition ex_condition2 : @Tensor Z :=
  {| shape := [2; 2]; data := [21; 22; 23; 24] |}.

(** A dataset without transitions. *)
Definition ex_empty_dataset : @Minari.MinariDataset Z :=
  {| Minari.states := column [];
     Minari.actions := column [];
     Minari.next_states := column [];
     Minari.rewards := column [];
     Minari.is_finished := column [];
     Minari.len := 0;
     Minari.fake_actions := None;
     Minari.fake_next_actions := None |}.

(** Integer stand-ins for the float literals of the reward schemes. *)
Definition ex_literal (s : string) : Z :=
  if String.eqb s "1.0" then 1
  else if String.eqb s "1000" then 1000
  else 0.

(** [tune_reward] over integers. *)
Definition ex_tune_reward (env_id : string) (reward : list Z)
    (terminals : list bool) : result (list Z) :=
  Minari.tune_reward 0 Z.add Z.ltb Z.sub Z.mul Z.div
    (fun _ => 0) (fun _ => 1) ex_literal env_id reward terminals.

(** A solver of a kind [sample_forward_process] does not support, and a
    registry that also knows it. *)
Definition ex_other_solver : @Flow.Solver Z unit Z unit :=
  {| Flow.solver_kind := Flow.OtherSolver; Flow.integrate := ex_integrate |}.

Definition sde_config : @Flow.SolverConfig unit :=
  {| Flow.solver_type := "SDESolver"; Flow.solver_args := tt |}.

Definition ex_registry (sc : @Flow.SolverConfig unit)
  : result (@Flow.Solver Z unit Z unit) :=
  if String.eqb (Flow.solver_type sc) "SDESolver" then Ok ex_other_solver
  else ex_get_solver sc.

(** Direct-drift solvers that return a [TensorDict], and no snapshot. *)
Definition ex_tensordict_solver : @Flow.Solver Z unit Z unit :=
  {| Flow.solver_kind := Flow.ODESolver;
     Flow.integrate := fun _ => Ok Flow.DTensorDict |}.


(** A model over the structured state with fields [obs] of size 4 and
    [act] of size 2. *)
Definition ex_tree_x_size : gmap string Flow.XShape :=
  <["obs" := Flow.XInt 4]> (<["act" := Flow.XInt 2]> empty).

Definition ex_tree_model : @Flow.FlowModel Z unit Z unit unit unit :=
  {| Flow.config :=
       {| Flow.cfg_x_size := Flow.XMap ex_tree_x_size;
          Flow.cfg_device := "cpu";
          Flow.cfg_use_tree_tensor := Some true;
          Flow.cfg_model := tt;
          Flow.cfg_solver := Some ode_config |};
     Flow.x_size := Flow.XMap ex_tree_x_size;
     Flow.device := "cpu";
     Flow.gaussian_generator := fun n =>
       Ok {| shape := [n; 6]; data := replicate (Z.to_nat (n * 6)) 0 |};
     Flow.model := tt;
     Flow.solver := Some ex_ode_solver;
     Flow.diffusion_process := None;
     Flow.model_type := None |}.

(** A direct-drift solver over the structured state: two snapshots of
    [obs] (ones, then twos) and of [act] (threes, then fours) for each of
    the samples it is started with. *)
Definition ex_tree_solver : @Flow.Solver Z unit Z unit :=
  {| Flow.solver_kind := Flow.ODESolver;
     Flow.integrate := fun call =>
       let n := leading_size (Flow.ic_x0 call) in
       Ok (Flow.DTreeTensor
             [("obs", {| shape := [2; n; 4];
                         data := replicate (Z.to_nat (n * 4)) 1
                                 ++ replicate (Z.to_nat (n * 4)) 2 |});
              ("act", {| shape := [2; n; 2];
                         data := replicate (Z.to_nat (n * 2)) 3
                                 ++ replicate (Z.to_nat (n * 2)) 4 |})]) |}.

Definition ex_tree_solver_model : @Flow.FlowModel Z unit Z unit unit unit :=
  Flow.with_default_solver ex_tree_model (Some ex_tree_solver).

(** The two fields of a tree trajectory of two snapshots of one sample. *)
Definition ex_tree_fields : list (string * @Tensor Z) :=
  [("obs", {| shape := [2; 1; 4]; data := [1; 2; 3; 4; 5; 6; 7; 8] |});
   ("act", {| shape := [2; 1; 2]; data := [11; 12; 13; 14] |})].

(** Three samples whose rows have five entries instead of four. *)
Definition ex_x0_wide : @Tensor Z :=
  {| shape := [3; 5];
     data := [1; 2; 3; 4; 5; 6; 7; 8; 9; 10; 11; 12; 13; 14; 15] |}.

(** What a call without arguments prepares on [ode_model]. *)
Definition ex_prepared : @Flow.Prepared Z unit Z unit :=
  {| Flow.p_extra_batch_size := tensor [1];
     Flow.p_data_batch_size := 1;
     Flow.p_solver := ex_ode_solver;
     Flow.p_x := {| shape := [1; 4]; data := [0; 0; 0; 0] |};
     Flow.p_condition := None |}.

(** An [x_0] without rows. *)
Definition ex_x0_empty : @Tensor Z := {| shape := [0; 4]; data := [] |}.

End Examples.

(** * Properties *)

(** ** Episode lengths of [return_range] *)

Section ReturnRangeFacts.
Import Minari.
Context {float : Type}.
Variable float_zero : float.
Variable float_add : float -> float -> float.
Variable float_lt : float -> float -> bool.

Local Abbreviation step := (Minari.step float_zero float_add).
Local Abbreviation episodes := (Minari.episodes float_zero float_add).

Lemma sum_app (l1 l2 : list Z) : sum (l1 ++ l2) = sum l1 + sum l2.
Proof.
  unfold sum. induction l1 as [|x l1 IH]; simpl; [reflexivity|].
  rewrite IH. lia.
Qed.

(** Every tick is counted once: in the episode that is still open, or
    in the recorded lengths. *)
Lemma step_counts (max_episode_steps : Z) (st : Episodes) (rd : float * bool) :
  sum (lengths (step max_episode_steps st rd))
    + ep_len (step max_episode_steps st rd)
  = sum (lengths st) + ep_len st + 1.
Proof.
  unfold Minari.step.
  destruct (rd.2 || (ep_len st + 1 =? max_episode_steps)); simpl.
  - rewrite sum_app. unfold sum at 2. simpl. lia.
  - lia.
Qed.

Lemma loop_counts (max_episode_steps : Z) (ticks : list (float * bool))
    (st : Episodes) :
  let st' := foldl (step max_episode_steps) st ticks in
  sum (lengths st') + ep_len st'
  = sum (lengths st) + ep_len st + Z.of_nat (length ticks).
Proof.
  revert st. induction ticks as [|rd ticks IH]; intros st; simpl.
  - lia.
  - specialize (IH (step max_episode_steps st rd)). simpl in IH.
    rewrite IH, step_counts. lia.
Qed.

(** The loop runs over [zip(rewards, terminals)], hence over the shorter
    of the two sequences. *)
Lemma episodes_sum (rewards : list float) (terminals : list bool)
    (max_episode_steps : Z) :
  sum (lengths (episodes rewards terminals max_episode_steps))
  = Z.of_nat (length rewards `min` length terminals).
Proof.
  unfold Minari.episodes. simpl. rewrite sum_app.
  pose proof (loop_counts max_episode_steps (zip rewards terminals)
                (Minari.start float_zero)) as H.
  simpl in H. rewrite length_zip_with in H.
  change (sum []) with 0 in H.
  change (sum [?x]) with (x + 0). lia.
Qed.

(** C8: for rewards and terminal flags of one length, the recorded episode
    lengths, the final incomplete episode included, add up to the number of
    rewards, so the assertion of [return_range] holds and the call never
    raises an [AssertionError]. *)
Theorem return_range_lengths_sum (rewards : list float)
    (terminals : list bool) (max_episode_steps : Z) :
  length rewards = length terminals ->
  sum (lengths (episodes rewards terminals max_episode_steps))
    = Z.of_nat (length rewards) /\
  (forall msg,
     return_range float_zero float_add float_lt rewards terminals
       max_episode_steps <> Raise (AssertionError msg)).
Proof.
  intros Hlen.
  assert (Hsum : sum (lengths (episodes rewards terminals max_episode_steps))
                 = Z.of_nat (length rewards)).
  { rewrite episodes_sum. f_equal. lia. }
  split; [exact Hsum|].
  intros msg. unfold return_range.
  rewrite Hsum, Z.eqb_refl. simpl.
  destruct (py_min float_lt _) as [lo|e] eqn:Hmin; simpl.
  - destruct (py_max float_lt _) as [hi|e] eqn:Hmax; simpl; [discriminate|].
    unfold py_max in Hmax.
    destruct (returns _); [injection Hmax as <-|]; discriminate.
  - unfold py_min in Hmin.
    destruct (returns _); [injection Hmin as <-|]; discriminate.
Qed.

End ReturnRangeFacts.

Lemma return_range_lengths_sum_witness :
  length Examples.ex_rewards = length Examples.ex_terminals /\
  Minari.sum (Minari.lengths
    (Minari.episodes 0 Z.add Examples.ex_rewards Examples.ex_terminals 2))
    = 5 /\
  Minari.return_range 0 Z.add Z.ltb Examples.ex_rewards Examples.ex_terminals 2
    = Ok (3, 7).
Proof.
  pose proof (return_range_lengths_sum 0 Z.add Z.ltb Examples.ex_rewards
                Examples.ex_terminals 2 eq_refl) as [Hsum _].
  split; [reflexivity|]. split; [exact Hsum|]. reflexivity.
Defined.

(** ** Indexing a [MinariDataset] *)

Section DatasetFacts.
Import Torch Minari.
Context {scalar : Type}.

Local Abbreviation Tensor := (@Tensor scalar).
Local Abbreviation MinariDataset := (@MinariDataset scalar).
Local Abbreviation Value := (@Value scalar).

Lemma getitem_in_range (t : Tensor) (n i : Z) :
  shape0 t = Ok n -> 0 <= i < n -> getitem t i = Ok (entry t i).
Proof.
  unfold shape0, getitem, entry. intros Hn Hi.
  destruct (shape t) as [|m rest]; [discriminate|].
  injection Hn as ->.
  replace (i <? 0) with false by lia.
  replace (0 <=? i) with true by lia.
  replace (i <? n) with true by lia.
  reflexivity.
Qed.

Lemma at_index_in_range (t : Tensor) (self : MinariDataset) (index : Z) :
  0 < len self -> shape0 t = Ok (len self) ->
  at_index t self index = Ok (VTensor (entry t (index mod len self))).
Proof.
  intros Hlen Ht. unfold at_index, py_mod.
  replace (len self =? 0) with false by lia. simpl.
  rewrite (getitem_in_range t (len self)); [reflexivity|exact Ht|].
  apply Z.mod_pos_bound. exact Hlen.
Qed.

Lemma at_index_or_zero_in_range (t : option Tensor) (self : MinariDataset)
    (index : Z) :
  0 < len self -> (forall t', t = Some t' -> shape0 t' = Ok (len self)) ->
  at_index_or_zero t self index
  = Ok (entry_or_zero t (index mod len self)).
Proof.
  intros Hlen Ht. destruct t as [t'|]; simpl; [|reflexivity].
  apply at_index_in_range; auto.
Qed.

(** C10: on a non-empty dataset every non-negative index, also one beyond
    the length, is answered with the entries at position [index % len] and
    no exception; without fake actions the two fake entries are [0.0]. *)
Theorem getitem_wraps_around (self : MinariDataset) (index : Z) :
  consistent self -> 0 < __len__ self -> 0 <= index ->
  exists item : gmap string Value,
    let i := index mod __len__ self in
    0 <= i < __len__ self /\
    __getitem__ self index = Ok item /\
    item !! "s" = Some (VTensor (entry (states self) i)) /\
    item !! "a" = Some (VTensor (entry (actions self) i)) /\
    item !! "r" = Some (VTensor (entry (rewards self) i)) /\
    item !! "s_" = Some (VTensor (entry (next_states self) i)) /\
    item !! "d" = Some (VTensor (entry (is_finished self) i)) /\
    item !! "fake_a" = Some (entry_or_zero (fake_actions self) i) /\
    item !! "fake_a_" = Some (entry_or_zero (fake_next_actions self) i) /\
    (fake_actions self = None -> item !! "fake_a" = Some VFloatZero) /\
    (fake_next_actions self = None -> item !! "fake_a_" = Some VFloatZero).
Proof.
  unfold __len__.
  intros (Hs & Ha & Hn & Hr & Hd & Hf & Hf') Hlen Hidx.
  eexists. cbv zeta.
  split; [apply Z.mod_pos_bound; exact Hlen|].
  split.
  { unfold __getitem__.
    rewrite !at_index_in_range by assumption. simpl.
    rewrite !at_index_or_zero_in_range by assumption. simpl.
    reflexivity. }
  repeat split; try (intros ->); simplify_map_eq; reflexivity.
Qed.

End DatasetFacts.

Lemma getitem_wraps_around_witness :
  exists item : gmap string Minari.Value,
    Minari.__getitem__ Examples.ex_dataset 7 = Ok item /\
    item !! "s" = Some (Minari.VTensor {| Torch.shape := [1]; Torch.data := [11] |}) /\
    item !! "fake_a" = Some Minari.VFloatZero.
Proof.
  assert (Hc : Minari.consistent Examples.ex_dataset).
  { repeat split; try reflexivity; intros t Ht; discriminate Ht. }
  destruct (getitem_wraps_around Examples.ex_dataset 7 Hc eq_refl
              ltac:(discriminate))
    as (item & _ & Hitem & Hs & _ & _ & _ & _ & _ & _ & Hf & _).
  exists item. split; [exact Hitem|]. split; [exact Hs|].
  apply Hf. reflexivity.
Defined.

(** ** Sizes under [reshape] and [squeeze] *)

Section TorchFacts.
Import Torch.
Context {scalar : Type}.

Local Abbreviation Tensor := (@Tensor scalar).

Lemma numel_cons (d : Z) (s : list Z) : numel (d :: s) = d * numel s.
Proof. reflexivity. Qed.

Lemma numel_app (s1 s2 : list Z) : numel (s1 ++ s2) = numel s1 * numel s2.
Proof.
  induction s1 as [|d s1 IH]; simpl.
  - lia.
  - rewrite IH. lia.
Qed.

Lemma numel_pos (s : list Z) : Forall (fun d => 1 <= d) s -> 1 <= numel s.
Proof.
  induction 1 as [|d s Hd _ IH]; [unfold numel; simpl; lia|].
  rewrite numel_cons. nia.
Qed.

(** Scanning sizes that are all given: nothing is inferred, the product
    accumulates. *)
Lemma infer_scan_given (sizes : list Z) (acc : Z) (infer : bool) :
  Forall (fun d => 0 <= d) sizes ->
  infer_scan sizes acc infer = Ok (acc * numel sizes, infer).
Proof.
  intros H. revert acc. induction H as [|d s Hd _ IH]; intros acc; simpl.
  - unfold numel. simpl. f_equal. f_equal. lia.
  - replace (d =? -1) with false by lia.
    replace (0 <=? d) with true by lia.
    rewrite IH. f_equal. f_equal. lia.
Qed.

(** [reshape(-1, *dims)] of [T * prod(dims)] elements, all [dims]
    positive: the leading size is [T]. *)
Lemma infer_size_leading (dims : list Z) (T : Z) :
  Forall (fun d => 1 <= d) dims -> 0 <= T ->
  infer_size (-1 :: dims) (T * numel dims) = Ok (T :: dims).
Proof.
  intros Hdims HT. unfold infer_size. simpl infer_scan.
  rewrite infer_scan_given
    by (eapply Forall_impl; [exact Hdims|simpl; intros; lia]).
  pose proof (numel_pos dims Hdims) as Hpos.
  simpl. rewrite Z.mul_1_l.
  replace (0 <? numel dims) with true by lia.
  rewrite Z.mod_mul by lia. rewrite Z.eqb_refl, orb_true_r.
  replace (numel dims =? 0) with false by lia.
  rewrite Z.div_mul by lia. f_equal. f_equal.
  clear Hpos. induction Hdims as [|d s Hd _ IH]; [reflexivity|].
  simpl. replace (d =? -1) with false by lia. f_equal. exact IH.
Qed.

Lemma reshape_leading (t : Tensor) (dims : list Z) (T : Z) :
  Forall (fun d => 1 <= d) dims -> 0 <= T ->
  numel (shape t) = T * numel dims ->
  reshape t (-1 :: dims) = Ok {| shape := T :: dims; data := data t |}.
Proof.
  intros Hdims HT Hn. unfold reshape.
  rewrite Hn, infer_size_leading by assumption. reflexivity.
Qed.

(** [squeeze] at an axis in range: the axis goes when its size is 1. *)
Lemma squeeze_unit (t : Tensor) (dim : Z) :
  0 <= dim ->
  shape t !! Z.to_nat dim = Some 1 ->
  squeeze t dim
  = Ok {| shape := delete (Z.to_nat dim) (shape t); data := data t |}.
Proof.
  intros Hdim Hat. unfold squeeze.
  pose proof (lookup_lt_Some _ _ _ Hat) as Hlt.
  replace (dim <? _) with false by lia.
  replace (_ <=? dim) with false by lia.
  simpl. replace (dim <? 0) with false by lia.
  rewrite Hat. reflexivity.
Qed.

Lemma squeeze_keep (t : Tensor) (dim v : Z) :
  0 <= dim ->
  shape t !! Z.to_nat dim = Some v -> v <> 1 ->
  squeeze t dim = Ok t.
Proof.
  intros Hdim Hat Hv. unfold squeeze.
  pose proof (lookup_lt_Some _ _ _ Hat) as Hlt.
  replace (dim <? _) with false by lia.
  replace (_ <=? dim) with false by lia.
  simpl. replace (dim <? 0) with false by lia.
  rewrite Hat. destruct v as [|[]|]; congruence.
Qed.

(** *** Rows under [repeat_interleave] *)

Lemma replicate_chunk (r rest : list scalar) (k m : nat) :
  (m < k)%nat ->
  take (length r) (drop (m * length r) (concat (replicate k r) ++ rest)) = r.
Proof.
  revert m. induction k as [|k IH]; intros m Hm; [lia|].
  simpl. rewrite <- app_assoc. destruct m as [|m].
  - simpl. apply take_app_length.
  - simpl. rewrite drop_app_add. apply IH. lia.
Qed.

Lemma length_concat_replicate (r : list scalar) (k : nat) :
  length (concat (replicate k r)) = (k * length r)%nat.
Proof.
  induction k as [|k IH]; simpl; [reflexivity|].
  rewrite length_app, IH. reflexivity.
Qed.

(** In the concatenation of [k] copies of each row, the chunk number
    [i * k + m], for [m < k], is row [i]. *)
Lemma interleave_chunk (R : list (list scalar)) (n k i m : nat)
    (r : list scalar) :
  Forall (fun x => length x = n) R -> R !! i = Some r -> (m < k)%nat ->
  take n (drop ((i * k + m) * n)
            (concat ((fun x => concat (replicate k x)) <$> R))) = r.
Proof.
  intros Hall. revert i.
  induction Hall as [|x R Hx _ IH]; intros i Hi Hm; [discriminate|].
  destruct i as [|i]; simpl in Hi.
  - injection Hi as ->. subst n. simpl. apply replicate_chunk. exact Hm.
  - rewrite fmap_cons. simpl concat.
    replace ((S i * k + m) * n)%nat
      with (length (concat (replicate k x)) + (i * k + m) * n)%nat
      by (rewrite length_concat_replicate, Hx; lia).
    rewrite drop_app_add. apply IH; assumption.
Qed.

Lemma numel_nonneg (s : list Z) : Forall (fun d => 0 <= d) s -> 0 <= numel s.
Proof.
  induction 1 as [|d s Hd _ IH]; simpl; [lia|]. nia.
Qed.

Lemma rows_lookup (t : Tensor) (n : Z) (rest : list Z) (i : nat) :
  shape t = n :: rest -> (i < Z.to_nat n)%nat -> rows t !! i = Some (row t i).
Proof.
  intros Hs Hi. unfold rows. rewrite Hs, list_lookup_fmap.
  rewrite lookup_seq_lt by exact Hi. reflexivity.
Qed.

Lemma row_length (t : Tensor) (n : Z) (rest : list Z) (i : nat) :
  wf t -> shape t = n :: rest -> (i < Z.to_nat n)%nat ->
  length (row t i) = stride0 t.
Proof.
  intros [Hdims Hlen] Hs Hi. unfold row, stride0 in *.
  rewrite Hs in *. simpl in *.
  inversion Hdims as [|? ? Hn Hrest]; subst.
  pose proof (numel_nonneg rest Hrest) as Hnn.
  rewrite length_take, length_drop.
  assert (length (data t) = (Z.to_nat n * Z.to_nat (numel rest))%nat) as ->.
  { rewrite <- Z2Nat.inj_mul by lia. lia. }
  assert (S i * Z.to_nat (numel rest) <= Z.to_nat n * Z.to_nat (numel rest))%nat
    by (apply Nat.mul_le_mono_r; lia).
  lia.
Qed.

Lemma rows_uniform (t : Tensor) (n : Z) (rest : list Z) :
  wf t -> shape t = n :: rest ->
  Forall (fun x => length x = stride0 t) (rows t).
Proof.
  intros Hwf Hs. apply Forall_lookup. intros i x Hx.
  pose proof (lookup_lt_Some _ _ _ Hx) as Hlt.
  unfold rows in Hlt. rewrite Hs, length_fmap, length_seq in Hlt.
  rewrite (rows_lookup t n rest i Hs Hlt) in Hx. injection Hx as <-.
  apply (row_length t n rest i Hwf Hs Hlt).
Qed.

(** [repeat_interleave] by [k]: the leading size is multiplied by [k] and
    the entries [i * k], ..., [i * k + k - 1] of the result are entry [i]
    of the input. *)
Lemma repeat_interleave_rows (t t' : Tensor) (repeats : IntTensor) :
  wf t -> repeat_interleave t repeats = Ok t' ->
  0 <= item repeats /\
  shape t' = leading_size t * item repeats :: tail (shape t) /\
  forall i m : nat,
    Z.of_nat i < leading_size t -> Z.of_nat m < item repeats ->
    row t' (i * Z.to_nat (item repeats) + m) = row t i.
Proof.
  intros Hwf. unfold repeat_interleave, leading_size.
  destruct (shape t) as [|n rest] eqn:Hs; [discriminate|].
  destruct (it_floating repeats); [discriminate|].
  destruct (item repeats <? 0) eqn:Hk; [discriminate|].
  intros [= <-]. simpl. split; [lia|]. split; [reflexivity|].
  intros i m Hi Hm. unfold row at 1, stride0 at 1 2. simpl.
  change (Z.to_nat (numel rest)) with (Z.to_nat (numel (tail (n :: rest)))).
  rewrite <- Hs. fold (stride0 t).
  apply interleave_chunk.
  - apply (rows_uniform t n rest Hwf Hs).
  - apply (rows_lookup t n rest i Hs). lia.
  - lia.
Qed.

(** *** Entries of a tensor whose leading axis was split *)



End TorchFacts.

(** ** [FlowModel.sample_forward_process]: validation and solver choice *)

Section FlowFacts.
Import Torch Flow.
Context {scalar Model Param Process Kwargs ModelConfig : Type}.

Local Abbreviation Tensor := (@Torch.Tensor scalar).
Local Abbreviation Solver := (@Flow.Solver scalar Model Param Process).
Local Abbreviation SolverConfig := (@Flow.SolverConfig Kwargs).
Local Abbreviation Config := (@Flow.Config Kwargs ModelConfig).
Local Abbreviation FlowModel :=
  (@Flow.FlowModel scalar Model Param Process Kwargs ModelConfig).
Local Abbreviation Args := (@Flow.Args scalar Kwargs).
Local Abbreviation World := (@Flow.World scalar Model Param Process).
Local Abbreviation Prepared := (@Flow.Prepared scalar Model Param Process).
Local Abbreviation IntegrateCall :=
  (@Flow.IntegrateCall scalar Model Param Process).

Variable find_parameters : Model -> list Param.
Variable get_solver : SolverConfig -> result Solver.
Variable gaussian_random_variable :
  XSize -> string -> bool -> result (Z -> result Tensor).
Variable IntrinsicModel : ModelConfig -> result Model.

Local Abbreviation prepare := (Flow.prepare get_solver).
Local Abbreviation select_solver := (Flow.select_solver get_solver).
Local Abbreviation run_solver := (Flow.run_solver find_parameters).
Local Abbreviation sample_forward_process :=
  (Flow.sample_forward_process find_parameters get_solver).
Local Abbreviation sample := (Flow.sample find_parameters get_solver).
Local Abbreviation __init__ :=
  (Flow.__init__ get_solver gaussian_random_variable IntrinsicModel).

(** The three stages of [sample_forward_process]. *)
Lemma sample_forward_process_stages (self : FlowModel) (a : Args) (w : World) :
  sample_forward_process self a w
  = match prepare self a with
    | Raise e => (w, Raise e)
    | Ok p =>
        let out := run_solver self a p w in
        (out.1, bind out.2 (inverse_composition self a p))
    end.
Proof.
  unfold Flow.sample_forward_process, bindM, lift.
  destruct (prepare self a) as [p|e]; [|reflexivity].
  destruct (run_solver self a p w) as [w' [d|e]]; reflexivity.
Qed.

(** A failed validation ends the call before the solver is touched. *)
Lemma prepare_raises (self : FlowModel) (a : Args) (w : World) (e : exn) :
  prepare self a = Raise e -> sample_forward_process self a w = (w, Raise e).
Proof. intros H. rewrite sample_forward_process_stages, H. reflexivity. Qed.

Lemma shape0_leading (t : Tensor) (n : Z) :
  shape0 t = Ok n -> leading_size t = n.
Proof.
  unfold shape0, leading_size. destruct (shape t); [discriminate|].
  intros [= ->]. reflexivity.
Qed.

Lemma data_batch_size_spec (x_0 condition : option Tensor) (n : Z) :
  data_batch_size x_0 condition = Ok n ->
  n = spec_data_batch_size x_0 condition.
Proof.
  unfold data_batch_size, spec_data_batch_size.
  destruct x_0 as [x|], condition as [c|]; simpl.
  - destruct (shape0 x) as [nx|] eqn:Hx; [simpl|discriminate].
    destruct (shape0 c) as [nc|]; [simpl|discriminate].
    destruct (nx =? nc); [simpl|discriminate].
    intros [= <-]. symmetry. apply shape0_leading, Hx.
  - intros H. symmetry. apply shape0_leading, H.
  - intros H. symmetry. apply shape0_leading, H.
  - intros [= <-]. reflexivity.
Qed.

Lemma data_batch_size_mismatch (x c : Tensor) (n m : Z) :
  shape0 x = Ok n -> shape0 c = Ok m -> n <> m ->
  data_batch_size (Some x) (Some c)
  = Raise (AssertionError
             "The batch size of x_0 and condition must be the same").
Proof.
  intros Hx Hc Hne. unfold data_batch_size. rewrite Hx, Hc. simpl.
  replace (n =? m) with false by lia. reflexivity.
Qed.

Lemma prepared_fields (self : FlowModel) (a : Args) (p : Prepared) :
  prepare self a = Ok p ->
  extra_batch_size (batch_size a) = Ok (p_extra_batch_size p) /\
  data_batch_size (x_0 a) (condition a) = Ok (p_data_batch_size p) /\
  select_solver self (solver_config a) = Ok (p_solver p) /\
  initial_state self (p_extra_batch_size p) (p_data_batch_size p) (x_0 a)
    = Ok (p_x p) /\
  expand_condition (p_extra_batch_size p) (condition a) = Ok (p_condition p).
Proof.
  unfold Flow.prepare.
  destruct (extra_batch_size _) as [ebs|] eqn:Hebs; [simpl|discriminate].
  destruct (data_batch_size _ _) as [n|] eqn:Hn; [simpl|discriminate].
  destruct (select_solver _ _) as [s|] eqn:Hs; [simpl|discriminate].
  destruct (initial_state _ _ _ _) as [x|] eqn:Hx; [simpl|discriminate].
  destruct (expand_condition _ _) as [c|] eqn:Hc; [simpl|discriminate].
  intros [= <-]. simpl. repeat split; assumption.
Qed.

Lemma data_batch_size_agreeing (x_0 condition : option Tensor) (n : Z) :
  (forall x, x_0 = Some x -> shape0 x = Ok n) ->
  (forall c, condition = Some c -> shape0 c = Ok n) ->
  (x_0 = None -> condition = None -> n = 1) ->
  data_batch_size x_0 condition = Ok n.
Proof.
  intros Hx Hc Hnone. unfold data_batch_size.
  destruct x_0 as [x|], condition as [c|].
  - rewrite (Hx x eq_refl), (Hc c eq_refl). simpl.
    rewrite Z.eqb_refl. reflexivity.
  - apply Hx. reflexivity.
  - apply Hc. reflexivity.
  - rewrite (Hnone eq_refl eq_refl). reflexivity.
Qed.

(** C5: the data batch size is [len(x_0)] if [x_0] is given, else
    [len(condition)] if [condition] is given, else 1: lines 124-134 return
    exactly this number whenever the given inputs have a leading axis and,
    if both are given, the same leading size, and it is the data batch size
    of every call that gets past the validation; and when [x_0] and
    [condition] are given with different leading sizes the call raises an
    assertion error without calling the solver (the batch-size-mismatch one
    whenever the [batch_size] argument itself is valid), so neither input is
    truncated. *)
Theorem data_batch_size_checked (self : FlowModel) (a : Args) (w : World) :
  (forall n,
     (forall x, x_0 a = Some x -> shape0 x = Ok n) ->
     (forall c, condition a = Some c -> shape0 c = Ok n) ->
     (x_0 a = None -> condition a = None -> n = 1) ->
     data_batch_size (x_0 a) (condition a) = Ok n /\
     spec_data_batch_size (x_0 a) (condition a) = n) /\
  (forall p, prepare self a = Ok p ->
     p_data_batch_size p = spec_data_batch_size (x_0 a) (condition a)) /\
  (forall x c n m,
     x_0 a = Some x -> condition a = Some c ->
     shape0 x = Ok n -> shape0 c = Ok m -> n <> m ->
     exists msg,
       sample_forward_process self a w = (w, Raise (AssertionError msg)) /\
       (is_ok (extra_batch_size (batch_size a)) = true ->
        msg = "The batch size of x_0 and condition must be the same")).
Proof.
  split; [|split].
  - intros n Hx Hc Hnone.
    pose proof (data_batch_size_agreeing _ _ n Hx Hc Hnone) as Hn.
    split; [exact Hn|]. symmetry. apply data_batch_size_spec, Hn.
  - intros p Hp. apply prepared_fields in Hp as (_ & Hn & _).
    apply data_batch_size_spec, Hn.
  - intros x c n m Hx Hc Hn Hm Hne.
    pose proof (data_batch_size_mismatch x c n m Hn Hm Hne) as Hraise.
    destruct (extra_batch_size (batch_size a)) as [ebs|e] eqn:Hebs.
    + eexists. split; [|reflexivity].
      apply prepare_raises. unfold Flow.prepare.
      rewrite Hebs, Hx, Hc, Hraise. reflexivity.
    + unfold extra_batch_size in Hebs.
      destruct (batch_size a) as [[| |]|] eqn:Hbs; try discriminate.
      injection Hebs as <-.
      eexists. split; [|discriminate].
      apply prepare_raises. unfold Flow.prepare, extra_batch_size.
      rewrite Hbs. reflexivity.
Qed.

Lemma init_solver_attribute (cfg : Config) (self : FlowModel) :
  __init__ cfg = Ok self ->
  config self = cfg /\
  (cfg_solver cfg = None -> solver self = None) /\
  diffusion_process self = None /\ model_type self = None.
Proof.
  unfold Flow.__init__.
  destruct (gaussian_random_variable _ _ _) as [g|]; [simpl|discriminate].
  destruct (IntrinsicModel _) as [net|]; [simpl|discriminate].
  destruct (cfg_solver cfg) as [sc|].
  - destruct (get_solver sc) as [s|]; [simpl|discriminate].
    intros [= <-]. simpl. repeat split. discriminate.
  - intros [= <-]. simpl. repeat split.
Qed.

Lemma select_solver_missing (self : FlowModel) :
  solver self = None ->
  select_solver self None
  = Raise (AssertionError
             "solver must be specified in config or solver_config").
Proof. intros H. unfold Flow.select_solver. rewrite H. reflexivity. Qed.

(** With a per-call solver the default solver attribute is never read. *)
Lemma default_solver_unused (self : FlowModel) (a : Args) (w : World)
    (sc : SolverConfig) (default : option Solver) :
  solver_config a = Some sc ->
  sample_forward_process (with_default_solver self default) a w
  = sample_forward_process self a w.
Proof.
  intros Hsc.
  unfold Flow.sample_forward_process, Flow.prepare, Flow.select_solver.
  rewrite Hsc. reflexivity.
Qed.

(** C6: on a model built from a config without a solver, a call without
    [solver_config] ends in an exception before the solver or the sampler is
    touched, and that exception is the no-solver assertion whenever the batch
    arguments pass their own checks; with [solver_config] given, the solver
    is the one the registry builds from it and the default is not read. *)
Theorem solver_selection (self : FlowModel) (a : Args) (w : World) :
  (forall cfg,
     __init__ cfg = Ok self -> cfg_solver cfg = None ->
     solver_config a = None ->
     (exists e, sample_forward_process self a w = (w, Raise e)) /\
     (is_ok (extra_batch_size (batch_size a)) = true ->
      is_ok (data_batch_size (x_0 a) (condition a)) = true ->
      sample_forward_process self a w
      = (w, Raise (AssertionError
                     "solver must be specified in config or solver_config")))) /\
  (forall sc default,
     solver_config a = Some sc ->
     select_solver self (solver_config a) = get_solver sc /\
     sample_forward_process (with_default_solver self default) a w
     = sample_forward_process self a w).
Proof.
  split.
  - intros cfg Hinit Hcfg Hsc.
    apply init_solver_attribute in Hinit as (_ & Hnone & _).
    pose proof (select_solver_missing self (Hnone Hcfg)) as Hsel.
    assert (Hprep : exists e, prepare self a = Raise e /\
              (is_ok (extra_batch_size (batch_size a)) = true ->
               is_ok (data_batch_size (x_0 a) (condition a)) = true ->
               e = AssertionError
                     "solver must be specified in config or solver_config")).
    { unfold Flow.prepare. rewrite Hsc, Hsel.
      destruct (extra_batch_size _) as [ebs|e]; simpl;
        [|eexists; split; [reflexivity|discriminate]].
      destruct (data_batch_size _ _) as [n|e]; simpl;
        [|eexists; split; [reflexivity|discriminate]].
      eexists; split; reflexivity. }
    destruct Hprep as (e & Hraise & He).
    rewrite (prepare_raises self a w e Hraise). split.
    + exists e. reflexivity.
    + intros H1 H2. rewrite (He H1 H2). reflexivity.
  - intros sc default Hsc. split.
    + rewrite Hsc. reflexivity.
    + apply (default_solver_unused self a w sc default Hsc).
Qed.

(** C9: whatever the [batch_size] argument (absent, an int or a sequence),
    the normalised extra batch size is a rank-1 tensor, so the test
    [len(extra_batch_size.shape) == 0] fails in every call and the reshape
    is the one of the rank-1 branch. *)
Theorem extra_batch_size_rank_1 (self : FlowModel) (a : Args) (p : Prepared) :
  prepare self a = Ok p ->
  (forall bs, bs <> Some BOther ->
     exists ebs, extra_batch_size bs = Ok ebs /\
                 length (it_shape ebs) = 1%nat) /\
  length (it_shape (p_extra_batch_size p)) = 1%nat /\
  (forall xs (data : Tensor),
     reshape_batch xs (p_extra_batch_size p) (p_data_batch_size p) data
     = match xs with
       | XInt d =>
           reshape data ([-1] ++ it_vals (p_extra_batch_size p)
                         ++ [p_data_batch_size p; d])
       | XSeq l =>
           reshape data ([-1] ++ it_vals (p_extra_batch_size p)
                         ++ [p_data_batch_size p] ++ l)
       | XInvalid => Raise (AssertionError "Invalid x_size")
       end).
Proof.
  intros Hp.
  assert (Hall : forall bs ebs, extra_batch_size bs = Ok ebs ->
                   length (it_shape ebs) = 1%nat).
  { intros [[n|l|]|] ebs; simpl; try discriminate; intros [= <-]; reflexivity. }
  apply prepared_fields in Hp as (Hebs & _).
  split; [|split].
  - intros [[n|l|]|] Hbs; try (eexists; split; reflexivity).
    congruence.
  - apply (Hall _ _ Hebs).
  - intros xs data. unfold reshape_batch.
    rewrite (Hall _ _ Hebs). reflexivity.
Qed.

Lemma getitem_last (t : Tensor) (T : Z) (rest : list Z) :
  shape t = T :: rest -> 1 <= T -> getitem t (-1) = Ok (entry t (T - 1)).
Proof.
  intros Hs HT. unfold getitem, entry. rewrite Hs. simpl.
  replace (-1 + T) with (T - 1) by lia.
  replace (0 <=? T - 1) with true by lia.
  replace (T - 1 <? T) with true by lia.
  reflexivity.
Qed.

(** The index [-1] on every field of a tree of tensors with at least one
    snapshot each. *)
Lemma getitem_last_fields (fields : list (string * Tensor)) :
  Forall (fun f => exists T rest, shape f.2 = T :: rest /\ 1 <= T) fields ->
  for_keys (fun _ t => getitem t (-1)) fields
  = Ok ((fun f => (f.1, entry f.2 (leading_size f.2 - 1))) <$> fields).
Proof.
  induction 1 as [|[key t] fields (T & rest & Hs & HT) _ IH];
    [reflexivity|].
  simpl in Hs. cbn [for_keys]. rewrite (getitem_last t T rest Hs HT), IH.
  unfold leading_size. simpl. rewrite Hs. reflexivity.
Qed.

(** C7: [sample] is [sample_forward_process] on the same arguments followed
    by the index [-1].  When the trajectory is a tensor of [T >= 1] snapshots
    the result is its entry at time index [T - 1]; when it is a tree of
    tensors, the result is the tree of the last entries of its fields, under
    the same names; and an exception of [sample_forward_process] is the
    exception of [sample]. *)
Theorem sample_is_last_snapshot (self : FlowModel) (a : Args) (w : World) :
  sample self a w
  = (let out := sample_forward_process self a w in
     (out.1, bind out.2 (fun data => getitem_data data (-1)))) /\
  (forall traj T rest,
     (sample_forward_process self a w).2 = Ok (DTensor traj) ->
     shape traj = T :: rest -> 1 <= T ->
     (sample self a w).2 = Ok (DTensor (entry traj (T - 1)))) /\
  (forall fields,
     (sample_forward_process self a w).2 = Ok (DTreeTensor fields) ->
     Forall (fun f => exists T rest, shape f.2 = T :: rest /\ 1 <= T)
       fields ->
     (sample self a w).2
     = Ok (DTreeTensor
             ((fun f => (f.1, entry f.2 (leading_size f.2 - 1))) <$> fields)))
  /\
  (forall e,
     (sample_forward_process self a w).2 = Raise e ->
     (sample self a w).2 = Raise e).
Proof.
  assert (Hdef : sample self a w
    = (let out := sample_forward_process self a w in
       (out.1, bind out.2 (fun data => getitem_data data (-1))))).
  { unfold Flow.sample, bindM, lift.
    destruct (sample_forward_process self a w) as [w' [d|e]]; reflexivity. }
  split; [exact Hdef|]. split; [|split].
  - intros traj T rest Hres Hshape HT.
    rewrite Hdef. simpl. rewrite Hres. simpl.
    rewrite (getitem_last traj T rest Hshape HT). reflexivity.
  - intros fields Hres Hall.
    rewrite Hdef. simpl. rewrite Hres. simpl.
    rewrite (getitem_last_fields fields Hall). reflexivity.
  - intros e Hres. rewrite Hdef. simpl. rewrite Hres. reflexivity.
Qed.

(** *** The solver call *)

Lemma new_calls_one (w : World) (g : bool) (call : IntegrateCall) :
  new_calls w {| grad_enabled := g;
                 integrate_calls := integrate_calls w ++ [call] |} = [call].
Proof. unfold new_calls. simpl. apply drop_app_length. Qed.

Lemma new_calls_none (w : World) : new_calls w w = [].
Proof. unfold new_calls. apply drop_all. Qed.

(** The direct-drift path: one call, with the parameter list, in the
    caller's gradient mode or with tracking off. *)
Lemma run_solver_ode (self : FlowModel) (a : Args) (p : Prepared) (w : World) :
  solver_kind (p_solver p) = ODESolver ->
  let call := ode_kwargs find_parameters self a p
                (with_grad a && grad_enabled w) in
  run_solver self a p w
  = ({| grad_enabled := grad_enabled w;
        integrate_calls := integrate_calls w ++ [call] |},
     integrate (p_solver p) call).
Proof.
  intros Hk. unfold Flow.run_solver. rewrite Hk.
  destruct (with_grad a); reflexivity.
Qed.

(** The structured path, when both attributes it reads are there: one call,
    with [batch_size] and [x_size] and without a parameter list. *)
Lemma run_solver_dict (self : FlowModel) (a : Args) (p : Prepared) (w : World)
    (process : Process) (ty : string) :
  solver_kind (p_solver p) = DictTensorODESolver ->
  diffusion_process self = Some process -> model_type self = Some ty ->
  let call :=
    dict_kwargs a p (ReverseOdeDrift process (model self) ty (p_condition p))
      (with_grad a && grad_enabled w) in
  run_solver self a p w
  = ({| grad_enabled := grad_enabled w;
        integrate_calls := integrate_calls w ++ [call] |},
     integrate (p_solver p) call).
Proof.
  intros Hk Hdp Hty. unfold Flow.run_solver, reverse_ode_drift.
  rewrite Hk, Hdp, Hty.
  destruct (with_grad a); reflexivity.
Qed.

(** Whatever the path, the gradient mode is restored, and a call that was
    made ran in mode [with_grad and <ambient mode>], with the parameter list
    exactly on the direct-drift path. *)
Lemma run_solver_calls (self : FlowModel) (a : Args) (p : Prepared) (w : World) :
  let out := run_solver self a p w in
  grad_enabled out.1 = grad_enabled w /\
  forall call, elem_of call (new_calls w out.1) ->
    ic_grad_enabled call = with_grad a && grad_enabled w /\
    match ic_drift call with
    | ModelDrift _ _ =>
        ic_adjoint_params call = Some (find_parameters (model self))
    | ReverseOdeDrift _ _ _ _ =>
        ic_adjoint_params call = None /\
        ic_batch_size call
        = Some (item (prod (p_extra_batch_size p)) * p_data_batch_size p) /\
        ic_x_size call = Some (shape (p_x p))
    end.
Proof.
  destruct (solver_kind (p_solver p)) eqn:Hk.
  - rewrite run_solver_ode by exact Hk. simpl. split; [reflexivity|].
    intros call. rewrite new_calls_one. intros ->%list_elem_of_singleton.
    simpl. auto.
  - destruct (diffusion_process self) as [process|] eqn:Hdp;
      [destruct (model_type self) as [ty|] eqn:Hty|].
    + rewrite (run_solver_dict self a p w process ty) by assumption.
      simpl. split; [reflexivity|].
      intros call. rewrite new_calls_one. intros ->%list_elem_of_singleton.
      simpl. auto.
    + unfold Flow.run_solver, reverse_ode_drift. rewrite Hk, Hdp, Hty.
      destruct (with_grad a); simpl; (split; [reflexivity|]);
        unfold new_calls; simpl; rewrite drop_all;
        intros call Hin; inversion Hin.
    + unfold Flow.run_solver, reverse_ode_drift. rewrite Hk, Hdp.
      destruct (with_grad a); simpl; (split; [reflexivity|]);
        unfold new_calls; simpl; rewrite drop_all;
        intros call Hin; inversion Hin.
  - unfold Flow.run_solver. rewrite Hk.
    destruct (cfg_solver (config self)); simpl; (split; [reflexivity|]);
      rewrite new_calls_none; intros call Hin; inversion Hin.
Qed.

(** C3, as the code has it: the gradient mode is restored after the call;
    every [solver.integrate] call runs with tracking off when
    [with_grad=False] and in the caller's mode when [with_grad=True]; the
    direct-drift path makes one call and passes
    [adjoint_params=find_parameters(self.model)]; the structured path, when
    [self.diffusion_process] and [self.model_type] exist, makes one call and
    passes [batch_size] and [x_size] but no parameter list. *)
Theorem integrate_call_arguments (self : FlowModel) (a : Args) (w : World) :
  let out := sample_forward_process self a w in
  grad_enabled out.1 = grad_enabled w /\
  (forall call, elem_of call (new_calls w out.1) ->
     ic_grad_enabled call = with_grad a && grad_enabled w /\
     (with_grad a = false -> ic_grad_enabled call = false) /\
     match ic_drift call with
     | ModelDrift _ _ =>
         ic_adjoint_params call = Some (find_parameters (model self))
     | ReverseOdeDrift _ _ _ _ =>
         ic_adjoint_params call = None /\
         is_Some (ic_batch_size call) /\ is_Some (ic_x_size call)
     end) /\
  (forall p,
     prepare self a = Ok p ->
     (solver_kind (p_solver p) = ODESolver ->
      new_calls w out.1
      = [ode_kwargs find_parameters self a p
           (with_grad a && grad_enabled w)]) /\
     (forall process ty,
        solver_kind (p_solver p) = DictTensorODESolver ->
        diffusion_process self = Some process -> model_type self = Some ty ->
        new_calls w out.1
        = [dict_kwargs a p
             (ReverseOdeDrift process (model self) ty (p_condition p))
             (with_grad a && grad_enabled w)])).
Proof.
  cbv zeta. rewrite sample_forward_process_stages.
  destruct (prepare self a) as [p|e] eqn:Hp.
  - pose proof (run_solver_calls self a p w) as [Hgrad Hcalls].
    cbv zeta. simpl. split; [exact Hgrad|]. split.
    + intros call Hin. destruct (Hcalls call Hin) as [Hg Hargs].
      split; [exact Hg|]. split.
      * intros Hwg. rewrite Hg, Hwg. reflexivity.
      * destruct (ic_drift call); [exact Hargs|].
        destruct Hargs as (-> & -> & ->). eauto.
    + intros p' [= <-]. split.
      * intros Hk. rewrite run_solver_ode by exact Hk. apply new_calls_one.
      * intros process ty Hk Hdp Hty.
        rewrite (run_solver_dict self a p w process ty) by assumption.
        apply new_calls_one.
  - simpl. split; [reflexivity|]. split.
    + rewrite new_calls_none. intros call Hin. inversion Hin.
    + intros p Hp'. discriminate.
Qed.

(** *** The expanded state and condition *)

Lemma extra_batch_size_vals (bs : option BatchSize) (ebs : IntTensor) :
  extra_batch_size bs = Ok ebs ->
  it_vals ebs = requested_extra_shape bs /\
  item (prod ebs) = numel (requested_extra_shape bs).
Proof.
  destruct bs as [[n|l|]|]; simpl; try discriminate;
    intros [= <-]; split; reflexivity.
Qed.

Lemma check_x_0_shape_rows (self : FlowModel) (x0 : Tensor) :
  check_x_0_shape self x0 = Ok tt -> 1 <= leading_size x0.
Proof.
  unfold check_x_0_shape, leading_size, getitem.
  destruct (x_size self) as [[n|l|]|m]; try discriminate;
    (destruct (shape x0) as [|k rest]; [discriminate|]); simpl;
    (destruct (0 <? k) eqn:H1; [|discriminate]); intros _; lia.
Qed.

(** C4: a given [x_0] of [N] rows is expanded to [N * k] rows, for [k] the
    product of the requested extra batch shape, with the [k] copies of row
    [i] at the flat indices [i * k], ..., [i * k + k - 1]; a given condition
    is expanded by the same [k] in the same order, so row [j] of the expanded
    condition belongs to row [j] of the expanded state; and these two are
    what the solver receives. *)
Theorem repeat_interleave_alignment (self : FlowModel) (a : Args)
    (p : Prepared) (x0 : Tensor) :
  prepare self a = Ok p -> x_0 a = Some x0 -> wf x0 ->
  (forall c, condition a = Some c -> wf c) ->
  let k := numel (requested_extra_shape (batch_size a)) in
  let N := leading_size x0 in
  0 <= k /\ 1 <= N /\ p_data_batch_size p = N /\
  shape (p_x p) = N * k :: tail (shape x0) /\
  (forall i m : nat,
     Z.of_nat i < N -> Z.of_nat m < k ->
     row (p_x p) (i * Z.to_nat k + m) = row x0 i) /\
  match condition a with
  | None => p_condition p = None
  | Some c =>
      exists c',
        p_condition p = Some c' /\
        shape c' = N * k :: tail (shape c) /\
        forall i m : nat,
          Z.of_nat i < N -> Z.of_nat m < k ->
          row c' (i * Z.to_nat k + m) = row c i
  end /\
  (forall w,
     solver_kind (p_solver p) = ODESolver ->
     exists call,
       new_calls w (sample_forward_process self a w).1 = [call] /\
       ic_x0 call = p_x p /\
       ic_drift call = ModelDrift (model self) (p_condition p)).
Proof.
  intros Hp Hx0 Hwf Hwfc. cbv zeta.
  pose proof (prepared_fields self a p Hp) as (Hebs & Hn & _ & Hx & Hc).
  apply extra_batch_size_vals in Hebs as [_ Hk]. rewrite <- Hk.
  rewrite Hx0 in Hx, Hn. unfold initial_state in Hx.
  destruct (check_x_0_shape self x0) as [[]|] eqn:Hcheck; [simpl in Hx|discriminate].
  pose proof (check_x_0_shape_rows self x0 Hcheck) as HN.
  pose proof (repeat_interleave_rows x0 (p_x p) _ Hwf Hx) as (Hk0 & Hshape & Hrows).
  pose proof (data_batch_size_spec _ _ _ Hn) as HNspec. simpl in HNspec.
  repeat split; try assumption.
  - destruct (condition a) as [c|] eqn:Hcond.
    + unfold expand_condition in Hc.
      destruct (repeat_interleave c _) as [c'|] eqn:Hrc; [|discriminate].
      injection Hc as Hc. exists c'. split; [congruence|].
      pose proof (repeat_interleave_rows c c' _ (Hwfc c eq_refl) Hrc)
        as (_ & Hcs & Hcr).
      assert (leading_size c = leading_size x0) as Hlead.
      { unfold data_batch_size in Hn.
        destruct (shape0 x0) as [nx|] eqn:Hsx; [simpl in Hn|discriminate].
        destruct (shape0 c) as [nc|] eqn:Hsc; [simpl in Hn|discriminate].
        destruct (nx =? nc) eqn:Heq; [|discriminate].
        rewrite (shape0_leading _ _ Hsx), (shape0_leading _ _ Hsc). lia. }
      rewrite Hlead in Hcs, Hcr. split; [exact Hcs|exact Hcr].
    + injection Hc as Hc. congruence.
  - intros w Hkind. eexists.
    rewrite sample_forward_process_stages, Hp. cbv zeta.
    rewrite run_solver_ode by exact Hkind. simpl.
    split; [apply new_calls_one|]. split; reflexivity.
Qed.

(** *** Output shapes on the flat-tensor path *)

Lemma extra_batch_size_requested (bs : option BatchSize) :
  bs <> Some BOther ->
  extra_batch_size bs = Ok (tensor (requested_extra_shape bs)).
Proof. destruct bs as [[n|l|]|]; simpl; congruence. Qed.

Lemma data_rows_batch_size (n : Z) (state_shape : list Z)
    (x_0 condition : option Tensor) :
  data_rows n state_shape x_0 condition ->
  data_batch_size x_0 condition = Ok n.
Proof.
  unfold data_rows, data_batch_size, shape0.
  destruct x_0 as [x|], condition as [c|].
  - intros [-> Hc]. simpl.
    destruct (shape c); [discriminate|]. injection Hc as ->.
    simpl. rewrite Z.eqb_refl. reflexivity.
  - intros ->. reflexivity.
  - auto.
  - intros ->. reflexivity.
Qed.

Lemma repeat_interleave_shape (t : Tensor) (n : Z) (rest l : list Z) :
  shape t = n :: rest -> l <> [] -> Forall (fun d => 1 <= d) l ->
  exists t', repeat_interleave t (prod (tensor l)) = Ok t' /\
             shape t' = n * numel l :: rest.
Proof.
  intros Hs Hl Hpos. unfold repeat_interleave. rewrite Hs.
  pose proof (numel_pos l Hpos) as Hk.
  destruct l as [|b l]; [congruence|]. simpl it_floating. cbv iota.
  change (item (prod (tensor (b :: l)))) with (numel (b :: l)).
  replace (numel (b :: l) <? 0) with false by lia.
  eexists. split; reflexivity.
Qed.

Lemma initial_state_shape (self : FlowModel) (l : list Z) (n d : Z)
    (x_0 condition : option Tensor) :
  x_size self = XPlain (XInt d) -> 1 <= n ->
  sampler_of_shape self [d] ->
  l <> [] -> Forall (fun d => 1 <= d) l ->
  data_rows n [d] x_0 condition ->
  exists x, initial_state self (tensor l) n x_0 = Ok x /\
            shape x = [numel l * n; d].
Proof.
  intros Hxs Hn Hgen Hl Hpos Hrows. unfold initial_state.
  destruct x_0 as [x0|].
  - assert (Hs : shape x0 = [n; d]).
    { destruct condition; simpl in Hrows; [apply Hrows|exact Hrows]. }
    assert (Hcheck : check_x_0_shape self x0 = Ok tt).
    { unfold check_x_0_shape, getitem. rewrite Hxs, Hs. simpl.
      replace (0 <? n) with true by lia. simpl.
      unfold size_eqb. rewrite bool_decide_eq_true_2; reflexivity. }
    rewrite Hcheck. simpl.
    destruct (repeat_interleave_shape x0 n [d] l Hs Hl Hpos) as (x & -> & Hx).
    exists x. split; [reflexivity|]. rewrite Hx. f_equal. lia.
  - destruct (Hgen (item (prod (tensor l)) * n)) as (x & -> & Hx).
    exists x. split; [reflexivity|exact Hx].
Qed.

Lemma expand_condition_ok (l : list Z) (n : Z) (state_shape : list Z)
    (x_0 condition : option Tensor) :
  l <> [] -> Forall (fun d => 1 <= d) l ->
  data_rows n state_shape x_0 condition ->
  exists c, expand_condition (tensor l) condition = Ok c.
Proof.
  intros Hl Hpos Hrows. unfold expand_condition.
  destruct condition as [c|]; [|eexists; reflexivity].
  assert (Hc : shape0 c = Ok n).
  { destruct x_0; simpl in Hrows; [apply Hrows|exact Hrows]. }
  unfold shape0 in Hc. destruct (shape c) as [|m rest] eqn:Hs; [discriminate|].
  destruct (repeat_interleave_shape c m rest l Hs Hl Hpos) as (c' & -> & _).
  eexists. reflexivity.
Qed.

(** With a rank-1 extra batch size of positive entries, the flat batch
    axis of [T] snapshots unfolds into the extra axes and the data axis. *)
Lemma reshape_batch_unfolds (traj : Tensor) (l : list Z) (T n d : Z) :
  Forall (fun d => 1 <= d) l -> 1 <= n -> 1 <= d -> 0 <= T ->
  shape traj = [T; numel l * n; d] ->
  reshape_batch (XInt d) (tensor l) n traj
  = Ok {| shape := T :: l ++ [n; d]; data := data traj |}.
Proof.
  intros Hpos Hn Hd HT Hs. unfold reshape_batch. simpl.
  apply reshape_leading.
  - apply Forall_app. split; [exact Hpos|]. repeat constructor; lia.
  - exact HT.
  - rewrite Hs, numel_app. simpl. lia.
Qed.

(** The result of a call on the flat-tensor path, up to the final
    squeezes. *)
Lemma tensor_path_result (self : FlowModel) (a : Args) (w : World)
    (s : Solver) (T d n : Z) :
  x_size self = XPlain (XInt d) -> 1 <= d -> 0 <= T -> 1 <= n ->
  select_solver self (solver_config a) = Ok s ->
  trajectory_solver T s -> sampler_of_shape self [d] ->
  batch_size a <> Some BOther ->
  requested_extra_shape (batch_size a) <> [] ->
  Forall (fun d => 1 <= d) (requested_extra_shape (batch_size a)) ->
  data_rows n [d] (x_0 a) (condition a) ->
  exists elements,
    (sample_forward_process self a w).2
    = bind (squeeze_batch a (tensor (requested_extra_shape (batch_size a)))
              {| shape := T :: requested_extra_shape (batch_size a) ++ [n; d];
                 data := elements |})
        (fun t => Ok (DTensor t)).
Proof.
  intros Hxs Hd HT Hn Hsel [Hkind Htraj] Hgen Hbs Hl Hpos Hrows.
  destruct (initial_state_shape self _ n d (x_0 a) (condition a)
              Hxs Hn Hgen Hl Hpos Hrows) as (x & Hx & Hxshape).
  destruct (expand_condition_ok _ n [d] (x_0 a) (condition a) Hl Hpos Hrows)
    as (c & Hc).
  rewrite sample_forward_process_stages. unfold Flow.prepare.
  rewrite (extra_batch_size_requested _ Hbs). simpl.
  rewrite (data_rows_batch_size n [d] _ _ Hrows). simpl.
  rewrite Hsel. simpl. rewrite Hx. simpl. rewrite Hc. simpl.
  rewrite run_solver_ode by exact Hkind. simpl.
  match goal with |- context [integrate s ?call] =>
    destruct (Htraj call) as (traj & -> & Hshape) end.
  simpl in Hshape. rewrite Hxshape in Hshape.
  exists (data traj). simpl. unfold x_size_plain. rewrite Hxs.
  rewrite (reshape_batch_unfolds traj _ T n d Hpos Hn Hd HT Hshape).
  simpl. destruct (squeeze_batch _ _ _); reflexivity.
Qed.


(** C2, what the code does: for a two-element batch size [(B1, B2)]
    without [x_0] and condition the axis squeezed, in the tensor branch and
    in the tree branch alike, is axis 2, the second extra-batch axis, because
    [len(extra_batch_size.shape)] is the rank 1 of the tensor and not its
    number of entries.  For [B2 > 1] nothing is squeezed and the data-batch
    axis of size 1 stays in the output: the shape is [(T, B1, B2, 1, D)]. *)
Theorem squeeze_axis_of_sequence (self : FlowModel) (a : Args)
    (w : World) (s : Solver) (T D B1 B2 : Z) :
  x_size self = XPlain (XInt D) -> 1 <= D -> 0 <= T ->
  select_solver self (solver_config a) = Ok s ->
  trajectory_solver T s -> sampler_of_shape self [D] ->
  1 <= B1 -> 2 <= B2 ->
  batch_size a = Some (BSeq [B1; B2]) ->
  x_0 a = None -> condition a = None ->
  (forall ebs (data : Tensor),
     extra_batch_size (batch_size a) = Ok ebs ->
     squeeze_batch a ebs data = squeeze data 2) /\
  returns_shape (sample_forward_process self a w).2 [T; B1; B2; 1; D].
Proof.
  intros Hxs HD HT Hsel Hsolver Hgen HB1 HB2 Hbs Hx Hc. split.
  { intros ebs data Hebs. unfold squeeze_batch. rewrite Hbs, Hx, Hc.
    rewrite Hbs in Hebs. injection Hebs as <-. reflexivity. }
  destruct (tensor_path_result self a w s T D 1 Hxs HD HT ltac:(lia)
              Hsel Hsolver Hgen) as (els & ->);
    rewrite ?Hbs, ?Hx, ?Hc; simpl;
    try congruence; try (repeat constructor; lia).
  unfold squeeze_batch. rewrite Hbs, Hx, Hc. simpl it_shape.
  rewrite (squeeze_keep _ _ B2) by (simpl; first [lia|reflexivity]).
  simpl. eexists. split; reflexivity.
Qed.

(** *** Further properties of [sample_forward_process] and [sample] *)

Lemma run_solver_log (self : FlowModel) (a : Args) (p : Prepared) (w : World) :
  exists calls,
    integrate_calls (run_solver self a p w).1 = integrate_calls w ++ calls /\
    (length calls <= 1)%nat.
Proof.
  destruct (solver_kind (p_solver p)) eqn:Hk.
  - rewrite run_solver_ode by exact Hk. eexists. split; [reflexivity|].
    simpl. lia.
  - unfold Flow.run_solver, reverse_ode_drift. rewrite Hk.
    destruct (diffusion_process self) as [process|];
      [destruct (model_type self) as [ty|]|];
      destruct (with_grad a); simpl;
      first [ exists []; split; [symmetry; apply app_nil_r|simpl; lia]
            | eexists; split; [reflexivity|simpl; lia] ].
  - unfold Flow.run_solver. rewrite Hk.
    destruct (cfg_solver (config self)); simpl;
      exists []; (split; [symmetry; apply app_nil_r|simpl; lia]).
Qed.

(** A call of [sample_forward_process] or [sample] keeps the solver calls
    made before it, adds at most one, and adds none when the validation of
    the arguments fails; [sample] calls the solver exactly as
    [sample_forward_process] does. *)
Theorem solver_called_at_most_once (self : FlowModel) (a : Args) (w : World) :
  exists calls,
    integrate_calls (sample_forward_process self a w).1
    = integrate_calls w ++ calls /\
    (length calls <= 1)%nat /\
    (sample self a w).1 = (sample_forward_process self a w).1 /\
    (forall e, prepare self a = Raise e -> calls = []).
Proof.
  assert (Hsample : (sample self a w).1 = (sample_forward_process self a w).1).
  { unfold Flow.sample, bindM, lift.
    destruct (sample_forward_process self a w) as [w' [d|e]]; reflexivity. }
  rewrite Hsample.
  pose proof (sample_forward_process_stages self a w) as Hst.
  destruct (prepare self a) as [p|e]; rewrite Hst.
  - destruct (run_solver_log self a p w) as (calls & Hlog & Hlen).
    exists calls. simpl. split; [exact Hlog|]. split; [exact Hlen|].
    split; [reflexivity|discriminate].
  - exists []. simpl. split; [symmetry; apply app_nil_r|].
    split; [lia|]. split; reflexivity.
Qed.

(** A solver that is neither an [ODESolver] nor a [DictTensorODESolver] is
    rejected without being called.  The message names the type of the
    default solver in [self.config], also when the rejected solver came from
    [solver_config]; on a model constructed without a default solver the
    lookup [self.config.solver] raises [AttributeError] instead. *)
Theorem unsupported_solver_kind (self : FlowModel) (a : Args) (w : World)
    (p : Prepared) :
  prepare self a = Ok p -> solver_kind (p_solver p) = OtherSolver ->
  sample_forward_process self a w
  = (w, Raise match cfg_solver (config self) with
              | Some sc =>
                  NotImplementedError
                    ("Solver type " ++ solver_type sc ++ " is not implemented")
              | None => AttributeError "solver"
              end).
Proof.
  intros Hp Hk. rewrite sample_forward_process_stages, Hp.
  unfold Flow.run_solver. rewrite Hk.
  destruct (cfg_solver (config self)); reflexivity.
Qed.

(** A given [x_0] whose rows do not have the configured state shape is
    rejected by an assertion before the solver is called, once the batch
    arguments and the solver have passed; with an [x_size] that is neither
    an int nor a sequence the assertion is the invalid-[x_size] one. *)
Theorem x_0_shape_is_validated (self : FlowModel) (a : Args) (w : World)
    (ebs : IntTensor) (n : Z) (s : Solver) (x0 : Tensor) (rows : Z)
    (row_shape : list Z) :
  extra_batch_size (batch_size a) = Ok ebs ->
  data_batch_size (x_0 a) (condition a) = Ok n ->
  select_solver self (solver_config a) = Ok s ->
  x_0 a = Some x0 -> shape x0 = rows :: row_shape -> 1 <= rows ->
  match x_size_plain (x_size self) with
  | XInt d => row_shape <> [d]
  | XSeq l => row_shape <> l
  | XInvalid => True
  end ->
  sample_forward_process self a w
  = (w, Raise (AssertionError
                 match x_size_plain (x_size self) with
                 | XInvalid => "Invalid x_size"
                 | _ => "The shape of x_0 must be the same as the x_size that is specified in the config"
                 end)).
Proof.
  intros Hebs Hn Hs Hx0 Hshape Hrows Hne.
  apply prepare_raises. unfold Flow.prepare.
  rewrite Hebs, Hn, Hs, Hx0. simpl.
  unfold check_x_0_shape, getitem. rewrite Hshape.
  destruct (x_size self) as [[d|l|]|m]; simpl in *; try reflexivity;
    replace (0 <? rows) with true by lia; simpl;
    unfold size_eqb; rewrite bool_decide_eq_false_2 by congruence;
    reflexivity.
Qed.

(** Without [x_0] nothing checks [x_size] before the solver runs: with an
    [x_size] that is neither an int nor a sequence the solver is called and
    integrates, and only then the reshape of its tensor result raises the
    invalid-[x_size] assertion. *)
Theorem invalid_x_size_found_after_integration (self : FlowModel) (a : Args)
    (w : World) (p : Prepared) (traj : Tensor) :
  prepare self a = Ok p -> solver_kind (p_solver p) = ODESolver ->
  x_size_plain (x_size self) = XInvalid ->
  let call := ode_kwargs find_parameters self a p
                (with_grad a && grad_enabled w) in
  integrate (p_solver p) call = Ok (DTensor traj) ->
  x_0 a = None /\
  sample_forward_process self a w
  = ({| grad_enabled := grad_enabled w;
        integrate_calls := integrate_calls w ++ [call] |},
     Raise (AssertionError "Invalid x_size")).
Proof.
  intros Hp Hk Hxs call Hint. split.
  - apply prepared_fields in Hp as (_ & _ & _ & Hx & _).
    destruct (x_0 a) as [x0|]; [|reflexivity]. exfalso.
    unfold initial_state, check_x_0_shape in Hx.
    destruct (x_size self) as [[d|l|]|m]; simpl in Hxs; try discriminate;
      simpl in Hx; discriminate.
  - rewrite sample_forward_process_stages, Hp. cbv zeta.
    rewrite run_solver_ode by exact Hk. cbv zeta. fold call.
    simpl. rewrite Hint. simpl. rewrite Hxs.
    unfold reshape_batch. destruct (bool_decide _); reflexivity.
Qed.

(** A solver result that is a [TensorDict], or of no known kind, is
    reported as not implemented, after the solver has run. *)
Theorem unsupported_result_after_integration (self : FlowModel) (a : Args)
    (w : World) (p : Prepared) (data : Data) :
  prepare self a = Ok p -> solver_kind (p_solver p) = ODESolver ->
  let call := ode_kwargs find_parameters self a p
                (with_grad a && grad_enabled w) in
  integrate (p_solver p) call = Ok data ->
  data = DTensorDict \/ data = DOther ->
  sample_forward_process self a w
  = ({| grad_enabled := grad_enabled w;
        integrate_calls := integrate_calls w ++ [call] |},
     Raise (NotImplementedError "Not implemented")).
Proof.
  intros Hp Hk call Hint Hdata.
  rewrite sample_forward_process_stages, Hp. cbv zeta.
  rewrite run_solver_ode by exact Hk. cbv zeta. fold call.
  simpl. rewrite Hint. destruct Hdata as [-> | ->]; reflexivity.
Qed.

(** A one-element sequence as batch size behaves in every respect like
    the int it holds. *)
Theorem singleton_batch_size_is_int (self : FlowModel) (w : World)
    (t_span x_0 condition : option Tensor) (with_grad : bool)
    (solver_config : option SolverConfig) (n : Z) :
  sample_forward_process self
    (mkArgs t_span (Some (BSeq [n])) x_0 condition with_grad solver_config) w
  = sample_forward_process self
      (mkArgs t_span (Some (BInt n)) x_0 condition with_grad solver_config) w
  /\
  sample self
    (mkArgs t_span (Some (BSeq [n])) x_0 condition with_grad solver_config) w
  = sample self
      (mkArgs t_span (Some (BInt n)) x_0 condition with_grad solver_config) w.
Proof.
  assert (H : sample_forward_process self
    (mkArgs t_span (Some (BSeq [n])) x_0 condition with_grad solver_config) w
  = sample_forward_process self
      (mkArgs t_span (Some (BInt n)) x_0 condition with_grad solver_config) w).
  { reflexivity. }
  split; [exact H|]. unfold Flow.sample, bindM. rewrite H. reflexivity.
Qed.

(** With [x_0] given the Gaussian sampler is never consulted: the call
    does the same whatever sampler the model holds. *)
Theorem sampler_unused_with_x_0 (self : FlowModel) (a : Args) (w : World)
    (x0 : Tensor) (g : Z -> result Tensor) :
  x_0 a = Some x0 ->
  sample_forward_process (with_gaussian_generator self g) a w
  = sample_forward_process self a w.
Proof.
  intros Hx0.
  unfold Flow.sample_forward_process, Flow.prepare, initial_state,
    check_x_0_shape.
  rewrite Hx0. reflexivity.
Qed.

(** A model constructed from a config with a solver holds the solver the
    registry built from it, and a call without [solver_config] selects that
    one.  When the registry rejects the configured solver no model is
    constructed: the constructor raises the registry's exception, unless
    the sampler or the network, which are built first, have raised their
    own. *)
Theorem configured_solver_is_default (cfg : Config) (sc : SolverConfig) :
  cfg_solver cfg = Some sc ->
  (forall self,
     __init__ cfg = Ok self ->
     exists s, get_solver sc = Ok s /\ solver self = Some s /\
               select_solver self None = Ok s) /\
  (forall e,
     get_solver sc = Raise e ->
     (forall self, __init__ cfg <> Ok self) /\
     (forall g net,
        gaussian_random_variable (cfg_x_size cfg) (cfg_device cfg)
          (match cfg_use_tree_tensor cfg with
           | Some b => b
           | None => false
           end) = Ok g ->
        IntrinsicModel (cfg_model cfg) = Ok net ->
        __init__ cfg = Raise e)).
Proof.
  intros Hcfg. unfold Flow.__init__. rewrite Hcfg. split.
  - intros self.
    destruct (gaussian_random_variable _ _ _) as [g|]; [simpl|discriminate].
    destruct (IntrinsicModel _) as [net|]; [simpl|discriminate].
    destruct (get_solver sc) as [s|e]; [simpl|discriminate].
    intros [= <-]. exists s. repeat split.
  - intros e He. rewrite He. split.
    + intros self.
      destruct (gaussian_random_variable _ _ _) as [g|]; [simpl|discriminate].
      destruct (IntrinsicModel _) as [net|]; simpl; discriminate.
    + intros g net -> ->. reflexivity.
Qed.

(** The squeezes of lines 260-273 on the unfolded trajectory, for an
    absent or int batch size. *)
Lemma squeeze_kept_shape (a : Args) (els : list scalar) (T n d : Z) :
  batch_size a = None \/ (exists B, batch_size a = Some (BInt B)) ->
  (x_0 a = None -> condition a = None -> n = 1) ->
  squeeze_batch a (tensor (requested_extra_shape (batch_size a)))
    {| shape := T :: requested_extra_shape (batch_size a) ++ [n; d];
       data := els |}
  = Ok {| shape := kept_shape a T n [d]; data := els |}.
Proof.
  intros Hbs Hn. unfold squeeze_batch, kept_shape.
  destruct Hbs as [Hbs|[B Hbs]]; rewrite Hbs; simpl.
  - destruct (x_0 a) as [x|] eqn:Hx; [|destruct (condition a) as [c|] eqn:Hc].
    + destruct (condition a); rewrite squeeze_unit by (simpl; first [lia|reflexivity]);
        reflexivity.
    + rewrite squeeze_unit by (simpl; first [lia|reflexivity]). reflexivity.
    + rewrite (Hn eq_refl eq_refl).
      rewrite squeeze_unit by (simpl; first [lia|reflexivity]). reflexivity.
  - destruct (x_0 a) as [x|] eqn:Hx; [|destruct (condition a) as [c|] eqn:Hc].
    + destruct (condition a); reflexivity.
    + reflexivity.
    + rewrite (Hn eq_refl eq_refl).
      rewrite squeeze_unit by (simpl; first [lia|reflexivity]). reflexivity.
Qed.








(** *** The tree-tensor branch *)

Lemma for_keys_ok (body : string -> Tensor -> result Tensor)
    (fields fields' : list (string * Tensor)) :
  for_keys body fields = Ok fields' <->
  Forall2 (fun f f' => f'.1 = f.1 /\ body f.1 f.2 = Ok f'.2) fields fields'.
Proof.
  revert fields'. induction fields as [|[key t] fields IH]; intros fields'.
  - simpl. split.
    + intros [= <-]. constructor.
    + intros H. inversion H. reflexivity.
  - simpl. split.
    + destruct (body key t) as [t'|] eqn:Hbody; [simpl|discriminate].
      destruct (for_keys body fields) as [rest|] eqn:Hrest; [simpl|discriminate].
      intros [= <-]. constructor; [split; [reflexivity|exact Hbody]|].
      apply IH. reflexivity.
    + intros H. inversion H as [|? [key' t'] ? rest [Hkey Hbody] Hrest]; subst.
      simpl in Hkey, Hbody. subst key'. rewrite Hbody. simpl.
      apply IH in Hrest. rewrite Hrest. reflexivity.
Qed.

Lemma reshape_batch_data (xs : XShape) (ebs : IntTensor) (n : Z)
    (t t' : Tensor) :
  reshape_batch xs ebs n t = Ok t' -> data t' = data t.
Proof.
  unfold reshape_batch, reshape.
  destruct (bool_decide _), xs; try discriminate;
    (destruct (infer_size _ _); [simpl|discriminate]);
    intros [= <-]; reflexivity.
Qed.

Lemma squeeze_data (t t' : Tensor) (dim : Z) :
  squeeze t dim = Ok t' -> data t' = data t.
Proof.
  unfold squeeze. destruct (_ || _); [discriminate|].
  destruct (shape t !! _) as [[|[]|]|]; intros [= <-]; reflexivity.
Qed.

Lemma squeeze_batch_data (a : Args) (ebs : IntTensor) (t t' : Tensor) :
  squeeze_batch a ebs t = Ok t' -> data t' = data t.
Proof.
  unfold squeeze_batch.
  destruct (batch_size a), (x_0 a), (condition a);
    try (intros [= <-]; reflexivity); try apply squeeze_data.
  destruct (squeeze t 1) as [t1|] eqn:H1; [simpl|discriminate].
  intros H2. apply squeeze_data in H1, H2. congruence.
Qed.

(** A tree result is accepted only when [x_size] is a mapping with an
    entry for every field of the result; the fields then keep their names,
    their order and their elements (only shapes change).  With a plain
    [x_size] a tree with at least one field raises [TypeError], and a field
    without entry raises [KeyError]. *)
Theorem tree_result_needs_mapping (self : FlowModel) (a : Args)
    (p : Prepared) (fields : list (string * Tensor)) :
  (forall result,
     inverse_composition self a p (DTreeTensor fields) = Ok result ->
     exists fields',
       result = DTreeTensor fields' /\
       Forall2 (fun f f' => f'.1 = f.1 /\ data f'.2 = data f.2)
         fields fields' /\
       (fields <> [] ->
        exists m, x_size self = XMap m /\
                  Forall (fun f => is_Some (m !! f.1)) fields)) /\
  (forall x key t rest,
     x_size self = XPlain x -> fields = (key, t) :: rest ->
     inverse_composition self a p (DTreeTensor fields) = Raise TypeError) /\
  (forall m key t rest,
     x_size self = XMap m -> fields = (key, t) :: rest -> m !! key = None ->
     inverse_composition self a p (DTreeTensor fields) = Raise (KeyError key)).
Proof.
  split; [|split].
  - intros result. simpl.
    destruct (for_keys _ fields) as [fields'|] eqn:Hfor; [simpl|discriminate].
    intros [= <-]. exists fields'. split; [reflexivity|].
    apply for_keys_ok in Hfor. split.
    + eapply Forall2_impl; [exact Hfor|]. simpl.
      intros [k t] [k' t'] [Hk Hbody]. simpl in *. split; [exact Hk|].
      destruct (x_size_item (x_size self) k) as [xs|]; [simpl in Hbody|discriminate].
      destruct (reshape_batch xs _ _ t) as [t1|] eqn:Hr; [simpl in Hbody|discriminate].
      apply reshape_batch_data in Hr. apply squeeze_batch_data in Hbody.
      congruence.
    + intros Hne. destruct (x_size self) as [x|m] eqn:Hxs.
      * exfalso. destruct Hfor as [|[k t] [k' t'] ? ? [_ Hbody] _];
          [congruence|]. simpl in Hbody. discriminate.
      * exists m. split; [reflexivity|]. clear Hne.
        induction Hfor as [|[k t] [k' t'] ? ? [_ Hbody] _ IH];
          constructor; [|exact IH].
        simpl in *. destruct (m !! k); [eexists; reflexivity|discriminate].
  - intros x key t rest Hxs ->. simpl. rewrite Hxs. reflexivity.
  - intros m key t rest Hxs -> Hkey. simpl. rewrite Hxs. simpl.
    rewrite Hkey. reflexivity.
Qed.

(** On a tree result every field is reshaped with its own entry of
    [x_size] and the shared batch sizes: a field [key] with
    [x_size[key] = d], holding [T] snapshots of the flat batch, comes out
    with the kept axes followed by [d], under its own name. *)
Theorem tree_fields_shapes (self : FlowModel) (a : Args) (p : Prepared)
    (m : gmap string XShape) (fields : list (string * Tensor)) (T : Z) :
  x_size self = XMap m -> prepare self a = Ok p ->
  batch_size a = None \/ (exists B, batch_size a = Some (BInt B) /\ 1 <= B) ->
  1 <= p_data_batch_size p -> 0 <= T ->
  Forall (fun f =>
            exists d, m !! f.1 = Some (XInt d) /\ 1 <= d /\
                      shape f.2
                      = [T; numel (requested_extra_shape (batch_size a))
                            * p_data_batch_size p; d]) fields ->
  exists fields',
    inverse_composition self a p (DTreeTensor fields)
    = Ok (DTreeTensor fields') /\
    Forall2 (fun f f' =>
               f'.1 = f.1 /\
               exists d, m !! f.1 = Some (XInt d) /\
                         shape f'.2
                         = kept_shape a T (p_data_batch_size p) [d])
      fields fields'.
Proof.
  intros Hxs Hp Hbs HN HT Hfields.
  apply prepared_fields in Hp as (Hebs & Hn & _).
  assert (Hl : batch_size a <> Some BOther /\
               Forall (fun d => 1 <= d) (requested_extra_shape (batch_size a)) /\
               (batch_size a = None \/ exists B, batch_size a = Some (BInt B))).
  { destruct Hbs as [Hb|(B & Hb & HB)]; rewrite Hb; simpl.
    - split; [congruence|]. split; [repeat constructor; lia|]. left. reflexivity.
    - split; [congruence|]. split; [repeat constructor; lia|].
      right. eexists. reflexivity. }
  destruct Hl as (Hne & Hpos & Hint).
  rewrite (extra_batch_size_requested _ Hne) in Hebs. injection Hebs as Hebs.
  assert (Hone : x_0 a = None -> condition a = None -> p_data_batch_size p = 1).
  { intros Hx Hc. rewrite Hx, Hc in Hn. simpl in Hn. congruence. }
  pose (body := fun (key : string) (t : Tensor) =>
    bind (x_size_item (XMap m) key) (fun xs =>
    bind (reshape_batch xs (p_extra_batch_size p) (p_data_batch_size p) t)
      (fun t => squeeze_batch a (p_extra_batch_size p) t))).
  assert (Hbody : exists fields',
    for_keys body fields = Ok fields' /\
    Forall2 (fun f f' =>
               f'.1 = f.1 /\
               exists d, m !! f.1 = Some (XInt d) /\
                         shape f'.2
                         = kept_shape a T (p_data_batch_size p) [d])
      fields fields').
  { induction Hfields as [|[key t] fields (d & Hkey & Hd & Hshape) _ IH].
    - exists []. split; [reflexivity|constructor].
    - destruct IH as (rest & Hrest & Hall). simpl in Hkey, Hshape.
      assert (Hb : body key t
                   = Ok {| shape := kept_shape a T (p_data_batch_size p) [d];
                           data := data t |}).
      { unfold body, x_size_item. rewrite Hkey. cbn [bind].
        rewrite <- Hebs.
        rewrite (reshape_batch_unfolds t _ T _ d Hpos HN Hd HT Hshape).
        cbn [bind].
        apply (squeeze_kept_shape a (data t) T _ d Hint Hone). }
      eexists ((key, _) :: rest). cbn [for_keys]. rewrite Hb, Hrest.
      split; [reflexivity|].
      constructor; [|exact Hall]. simpl. split; [reflexivity|].
      exists d. split; [exact Hkey|reflexivity]. }
  destruct Hbody as (fields' & Hfor & Hall).
  exists fields'. split; [|exact Hall].
  unfold inverse_composition. rewrite Hxs. fold body. rewrite Hfor.
  reflexivity.
Qed.

(** On a model as the constructor leaves it, a [DictTensorODESolver] can
    never be used: the branch reads [self.diffusion_process], which
    [__init__] does not set, so every call that gets as far as the solver
    raises [AttributeError] without calling it. *)
Theorem structured_solver_unusable_after_init (cfg : Config)
    (self : FlowModel) (a : Args) (w : World) (p : Prepared) :
  __init__ cfg = Ok self -> prepare self a = Ok p ->
  solver_kind (p_solver p) = DictTensorODESolver ->
  sample_forward_process self a w
  = (w, Raise (AttributeError "diffusion_process")).
Proof.
  intros Hinit Hp Hk.
  apply init_solver_attribute in Hinit as (_ & _ & Hdp & _).
  rewrite sample_forward_process_stages, Hp.
  unfold Flow.run_solver, reverse_ode_drift. rewrite Hk, Hdp.
  destruct w as [g calls]. destruct (with_grad a); reflexivity.
Qed.

(** An [x_0] without rows is rejected with [IndexError], raised by
    [x_0[0]] in the shape check, before the solver is called. *)
Theorem empty_x_0_rejected (self : FlowModel) (a : Args) (w : World)
    (ebs : IntTensor) (n : Z) (s : Solver) (x0 : Tensor)
    (row_shape : list Z) :
  extra_batch_size (batch_size a) = Ok ebs ->
  data_batch_size (x_0 a) (condition a) = Ok n ->
  select_solver self (solver_config a) = Ok s ->
  x_0 a = Some x0 -> shape x0 = 0 :: row_shape ->
  x_size_plain (x_size self) <> XInvalid ->
  n = 0 /\ sample_forward_process self a w = (w, Raise IndexError).
Proof.
  intros Hebs Hn Hs Hx0 Hshape Hxs. split.
  - apply data_batch_size_spec in Hn. rewrite Hx0 in Hn. simpl in Hn.
    unfold leading_size in Hn. rewrite Hshape in Hn. exact Hn.
  - apply prepare_raises. unfold Flow.prepare.
    rewrite Hebs, Hn, Hs, Hx0. simpl.
    unfold check_x_0_shape, getitem. rewrite Hshape.
    destruct (x_size self) as [[d|l|]|m]; simpl in *;
      first [reflexivity|congruence].
Qed.

End FlowFacts.

(** ** The statements on concrete calls *)

Section ConcreteCalls.
Import Torch Flow Examples.

Local Abbreviation run :=
  (Flow.sample_forward_process ex_find_parameters ex_get_solver).

Lemma ex_solver_trajectory : trajectory_solver 2 ex_ode_solver.
Proof.
  split; [reflexivity|]. intros call. eexists. split; reflexivity.
Qed.

Lemma ex_sampler_shape (default : option SolverConfig) (s : option Solver) :
  sampler_of_shape (ex_model default s) [4].
Proof. intros n. eexists. split; reflexivity. Qed.

Lemma ex_x0_wf : wf ex_x0.
Proof. split; [repeat constructor; lia|reflexivity]. Qed.

Lemma ex_condition3_wf : wf ex_condition3.
Proof. split; [repeat constructor; lia|reflexivity]. Qed.

End ConcreteCalls.


Lemma squeeze_axis_of_sequence_witness :
  Flow.returns_shape
    (Flow.sample_forward_process Examples.ex_find_parameters
       Examples.ex_get_solver Examples.ode_model
       (Examples.ex_args (Some (Flow.BSeq [2; 3])) None None false)
       Examples.ex_world).2 [2; 2; 3; 1; 4] /\
  ~ Flow.returns_shape
    (Flow.sample_forward_process Examples.ex_find_parameters
       Examples.ex_get_solver Examples.ode_model
       (Examples.ex_args (Some (Flow.BSeq [2; 3])) None None false)
       Examples.ex_world).2 [2; 2; 3; 4].
Proof.
  split; [|intros (t & Ht & Hs); vm_compute in Ht; injection Ht as <-;
           discriminate Hs].
  apply (squeeze_axis_of_sequence Examples.ex_find_parameters
           Examples.ex_get_solver Examples.ode_model
           (Examples.ex_args (Some (Flow.BSeq [2; 3])) None None false)
           Examples.ex_world Examples.ex_ode_solver 2 4 2 3 eq_refl
           ltac:(lia) ltac:(lia) eq_refl ex_solver_trajectory
           (ex_sampler_shape _ _) ltac:(lia) ltac:(lia) eq_refl eq_refl
           eq_refl).
Defined.

Lemma structured_path_passes_no_parameters :
  Flow.with_grad (Examples.ex_args None None None true) = true /\
  Flow.__init__ Examples.ex_get_solver
    Examples.ex_gaussian_random_variable Examples.ex_intrinsic_model (Examples.ex_config (Some Examples.dict_config))
    = Ok Examples.dict_model /\
  Flow.select_solver Examples.ex_get_solver Examples.dict_model None
    = Ok Examples.ex_dict_solver /\
  ~ Flow.integrates_with_parameters Examples.ex_find_parameters
      Examples.ex_get_solver Examples.dict_model_attached
      (Examples.ex_args None None None true) Examples.ex_world /\
  ~ Flow.integrates_with_parameters Examples.ex_find_parameters
      Examples.ex_get_solver Examples.dict_model
      (Examples.ex_args None None None true) Examples.ex_world.
Proof.
  split; [reflexivity|]. split; [reflexivity|]. split; [reflexivity|]. split.
  - intros (call & Hcalls & Hparams). vm_compute in Hcalls.
    injection Hcalls as <-. discriminate Hparams.
  - intros (call & Hcalls & _). vm_compute in Hcalls. discriminate Hcalls.
Qed.

Lemma integrate_call_arguments_witness :
  Flow.new_calls Examples.ex_world
    (Flow.sample_forward_process Examples.ex_find_parameters
       Examples.ex_get_solver Examples.ode_model
       (Examples.ex_args None None None true) Examples.ex_world).1
  = [ {| Flow.ic_drift := Flow.ModelDrift tt None;
         Flow.ic_x0 := {| Torch.shape := [1; 4]; Torch.data := [0; 0; 0; 0] |};
         Flow.ic_t_span := None;
         Flow.ic_adjoint_params := Some [101; 102];
         Flow.ic_batch_size := None;
         Flow.ic_x_size := None;
         Flow.ic_grad_enabled := true |} ] /\
  Flow.new_calls Examples.ex_world
    (Flow.sample_forward_process Examples.ex_find_parameters
       Examples.ex_get_solver Examples.dict_model_attached
       (Examples.ex_args None None None false) Examples.ex_world).1
  = [ {| Flow.ic_drift := Flow.ReverseOdeDrift tt tt "velocity_function" None;
         Flow.ic_x0 := {| Torch.shape := [1; 4]; Torch.data := [0; 0; 0; 0] |};
         Flow.ic_t_span := None;
         Flow.ic_adjoint_params := None;
         Flow.ic_batch_size := Some 1;
         Flow.ic_x_size := Some [1; 4];
         Flow.ic_grad_enabled := false |} ].
Proof.
  split.
  - destruct (integrate_call_arguments Examples.ex_find_parameters
                Examples.ex_get_solver Examples.ode_model
                (Examples.ex_args None None None true) Examples.ex_world)
      as (_ & _ & H).
    destruct (H _ eq_refl) as [Hode _]. exact (Hode eq_refl).
  - destruct (integrate_call_arguments Examples.ex_find_parameters
                Examples.ex_get_solver Examples.dict_model_attached
                (Examples.ex_args None None None false) Examples.ex_world)
      as (_ & _ & H).
    destruct (H _ eq_refl) as [_ Hdict].
    exact (Hdict tt "velocity_function" eq_refl eq_refl eq_refl).
Defined.

Lemma repeat_interleave_alignment_witness :
  exists p,
    Flow.prepare Examples.ex_get_solver Examples.ode_model
      (Examples.ex_args (Some (Flow.BInt 2)) (Some Examples.ex_x0)
         (Some Examples.ex_condition3) false) = Ok p /\
    Torch.shape (Flow.p_x p) = [6; 4] /\
    Torch.row (Flow.p_x p) 2 = [5; 6; 7; 8] /\
    Torch.row (Flow.p_x p) 3 = [5; 6; 7; 8] /\
    exists c', Flow.p_condition p = Some c' /\
               Torch.row c' 2 = [23; 24] /\ Torch.row c' 3 = [23; 24].
Proof.
  eexists. split; [vm_compute; reflexivity|].
  match goal with |- context [Flow.p_x ?p] =>
    destruct (repeat_interleave_alignment Examples.ex_find_parameters
                Examples.ex_get_solver Examples.ode_model
                (Examples.ex_args (Some (Flow.BInt 2)) (Some Examples.ex_x0)
                   (Some Examples.ex_condition3) false)
                p Examples.ex_x0 eq_refl eq_refl ex_x0_wf
                ltac:(intros c [= <-]; exact ex_condition3_wf))
      as (_ & _ & _ & Hshape & Hrows & (c' & Hc & _ & Hcrows) & _)
  end.
  split; [exact Hshape|].
  split; [exact (Hrows 1%nat 0%nat eq_refl eq_refl)|].
  split; [exact (Hrows 1%nat 1%nat eq_refl eq_refl)|].
  exists c'. split; [exact Hc|].
  split; [exact (Hcrows 1%nat 0%nat eq_refl eq_refl)
         |exact (Hcrows 1%nat 1%nat eq_refl eq_refl)].
Defined.

Lemma data_batch_size_checked_witness :
  Flow.sample_forward_process Examples.ex_find_parameters
    Examples.ex_get_solver Examples.ode_model
    (Examples.ex_args None (Some Examples.ex_x0)
       (Some Examples.ex_condition2) false) Examples.ex_world
  = (Examples.ex_world,
     Raise (AssertionError
              "The batch size of x_0 and condition must be the same")) /\
  Flow.data_batch_size (Some Examples.ex_x0) (Some Examples.ex_condition3)
  = Ok 3 /\
  Flow.data_batch_size None (Some Examples.ex_condition2) = Ok 2 /\
  Flow.data_batch_size (@None (@Torch.Tensor Z)) None = Ok 1 /\
  exists p,
    Flow.prepare Examples.ex_get_solver Examples.ode_model
      (Examples.ex_args None (Some Examples.ex_x0)
         (Some Examples.ex_condition3) false) = Ok p /\
    Flow.p_data_batch_size p = 3.
Proof.
  split; [|split; [|split; [|split]]].
  - destruct (data_batch_size_checked Examples.ex_find_parameters
                Examples.ex_get_solver Examples.ode_model
                (Examples.ex_args None (Some Examples.ex_x0)
                   (Some Examples.ex_condition2) false) Examples.ex_world)
      as (_ & _ & H).
    destruct (H Examples.ex_x0 Examples.ex_condition2 3 2 eq_refl eq_refl
                eq_refl eq_refl ltac:(lia)) as (msg & Hrun & Hmsg).
    rewrite Hrun, (Hmsg eq_refl). reflexivity.
  - destruct (data_batch_size_checked Examples.ex_find_parameters
                Examples.ex_get_solver Examples.ode_model
                (Examples.ex_args None (Some Examples.ex_x0)
                   (Some Examples.ex_condition3) false) Examples.ex_world)
      as (H & _).
    apply (H 3); [intros x [= <-]; reflexivity
                 |intros c [= <-]; reflexivity|discriminate].
  - destruct (data_batch_size_checked Examples.ex_find_parameters
                Examples.ex_get_solver Examples.ode_model
                (Examples.ex_args None None
                   (Some Examples.ex_condition2) false) Examples.ex_world)
      as (H & _).
    apply (H 2); [discriminate|intros c [= <-]; reflexivity|discriminate].
  - destruct (data_batch_size_checked Examples.ex_find_parameters
                Examples.ex_get_solver Examples.ode_model
                (Examples.ex_args None None None false) Examples.ex_world)
      as (H & _).
    apply (H 1); [discriminate|discriminate|reflexivity].
  - destruct (Flow.prepare Examples.ex_get_solver Examples.ode_model
                (Examples.ex_args None (Some Examples.ex_x0)
                   (Some Examples.ex_condition3) false)) as [p|e] eqn:Hp;
      [|discriminate Hp].
    exists p. split; [reflexivity|].
    destruct (data_batch_size_checked Examples.ex_find_parameters
                Examples.ex_get_solver Examples.ode_model
                (Examples.ex_args None (Some Examples.ex_x0)
                   (Some Examples.ex_condition3) false) Examples.ex_world)
      as (_ & H & _).
    exact (H p Hp).
Defined.

Lemma solver_selection_witness :
  Flow.__init__ Examples.ex_get_solver
    Examples.ex_gaussian_random_variable Examples.ex_intrinsic_model (Examples.ex_config None)
  = Ok (Examples.ex_model None None) /\
  Flow.sample_forward_process Examples.ex_find_parameters
    Examples.ex_get_solver (Examples.ex_model None None)
    (Examples.ex_args None None None false) Examples.ex_world
  = (Examples.ex_world,
     Raise (AssertionError
              "solver must be specified in config or solver_config")) /\
  Flow.sample_forward_process Examples.ex_find_parameters
    Examples.ex_get_solver
    (Flow.with_default_solver Examples.dict_model None)
    (Examples.ex_args_with_solver Examples.ode_config) Examples.ex_world
  = Flow.sample_forward_process Examples.ex_find_parameters
      Examples.ex_get_solver Examples.dict_model
      (Examples.ex_args_with_solver Examples.ode_config) Examples.ex_world.
Proof.
  split; [reflexivity|]. split.
  - destruct (solver_selection Examples.ex_find_parameters
                Examples.ex_get_solver
                Examples.ex_gaussian_random_variable
                Examples.ex_intrinsic_model (Examples.ex_model None None)
                (Examples.ex_args None None None false) Examples.ex_world)
      as [H _].
    destruct (H (Examples.ex_config None) eq_refl eq_refl eq_refl) as [_ Hmsg].
    exact (Hmsg eq_refl eq_refl).
  - destruct (solver_selection Examples.ex_find_parameters
                Examples.ex_get_solver
                Examples.ex_gaussian_random_variable
                Examples.ex_intrinsic_model Examples.dict_model
                (Examples.ex_args_with_solver Examples.ode_config)
                Examples.ex_world)
      as [_ H].
    destruct (H Examples.ode_config None eq_refl) as [_ Hsame]. exact Hsame.
Defined.

Lemma extra_batch_size_rank_1_witness :
  exists p,
    Flow.prepare Examples.ex_get_solver Examples.ode_model
      (Examples.ex_args (Some (Flow.BSeq [2; 3])) None None false) = Ok p /\
    length (Torch.it_shape (Flow.p_extra_batch_size p)) = 1%nat.
Proof.
  eexists. split; [vm_compute; reflexivity|].
  match goal with |- context [Flow.p_extra_batch_size ?p] =>
    destruct (extra_batch_size_rank_1 Examples.ex_get_solver
                Examples.ode_model
                (Examples.ex_args (Some (Flow.BSeq [2; 3])) None None false)
                p eq_refl) as (_ & H & _)
  end.
  exact H.
Defined.

Lemma sample_is_last_snapshot_witness :
  (exists traj,
     (Flow.sample_forward_process Examples.ex_find_parameters
        Examples.ex_get_solver Examples.ode_model
        (Examples.ex_args None (Some Examples.ex_x0) None false)
        Examples.ex_world).2 = Ok (Flow.DTensor traj) /\
     Torch.shape traj = [2; 3; 4] /\
     (Flow.sample Examples.ex_find_parameters
        Examples.ex_get_solver Examples.ode_model
        (Examples.ex_args None (Some Examples.ex_x0) None false)
        Examples.ex_world).2 = Ok (Flow.DTensor (Torch.entry traj 1))) /\
  (exists fields,
     (Flow.sample_forward_process Examples.ex_find_parameters
        Examples.ex_get_solver Examples.ex_tree_solver_model
        (Examples.ex_args None None None false)
        Examples.ex_world).2 = Ok (Flow.DTreeTensor fields) /\
     (Torch.shape <$> (snd <$> fields)) = [[2; 4]; [2; 2]] /\
     (Flow.sample Examples.ex_find_parameters
        Examples.ex_get_solver Examples.ex_tree_solver_model
        (Examples.ex_args None None None false)
        Examples.ex_world).2
     = Ok (Flow.DTreeTensor
             [("obs", {| Torch.shape := [4]; Torch.data := [2; 2; 2; 2] |});
              ("act", {| Torch.shape := [2]; Torch.data := [4; 4] |})])).
Proof.
  split.
  - eexists. split; [vm_compute; reflexivity|]. split; [reflexivity|].
    destruct (sample_is_last_snapshot Examples.ex_find_parameters
                Examples.ex_get_solver Examples.ode_model
                (Examples.ex_args None (Some Examples.ex_x0) None false)
                Examples.ex_world) as (_ & H & _).
    exact (H _ 2 [3; 4] eq_refl eq_refl ltac:(lia)).
  - exists [("obs", {| Torch.shape := [2; 4];
                       Torch.data := [1; 1; 1; 1; 2; 2; 2; 2] |});
            ("act", {| Torch.shape := [2; 2];
                       Torch.data := [3; 3; 4; 4] |})].
    split; [vm_compute; reflexivity|]. split; [reflexivity|].
    destruct (sample_is_last_snapshot Examples.ex_find_parameters
                Examples.ex_get_solver Examples.ex_tree_solver_model
                (Examples.ex_args None None None false)
                Examples.ex_world) as (_ & _ & H & _).
    refine (H _ eq_refl _).
    apply Forall_cons; split; [exists 2, [4]; split; [reflexivity|lia]|].
    apply Forall_cons; split; [exists 2, [2]; split; [reflexivity|lia]|].
    apply Forall_nil. exact I.
Defined.

(** * Further properties of the two files *)

(** ** [return_range]: episode bounds and failure modes *)

Section ReturnRangeMore.
Import Minari.
Context {float : Type}.
Variable float_zero : float.
Variable float_add : float -> float -> float.
Variable float_lt : float -> float -> bool.

Local Abbreviation step := (Minari.step float_zero float_add).
Local Abbreviation episodes := (Minari.episodes float_zero float_add).
Local Abbreviation return_range :=
  (Minari.return_range float_zero float_add float_lt).

(** The loop invariant behind the bounds: recorded lengths lie in
    [1 .. max_episode_steps], the open episode is shorter than that, and
    there is one recorded length per recorded return. *)
Lemma step_bounds (max_episode_steps : Z) (st : Episodes) (rd : float * bool) :
  1 <= max_episode_steps ->
  Forall (fun n => 1 <= n <= max_episode_steps) (lengths st) /\
  0 <= ep_len st < max_episode_steps /\
  length (lengths st) = length (returns st) ->
  Forall (fun n => 1 <= n <= max_episode_steps)
    (lengths (step max_episode_steps st rd)) /\
  0 <= ep_len (step max_episode_steps st rd) < max_episode_steps /\
  length (lengths (step max_episode_steps st rd))
  = length (returns (step max_episode_steps st rd)).
Proof.
  intros Hmax (Hall & Hopen & Hlen). unfold Minari.step.
  destruct (rd.2 || (ep_len st + 1 =? max_episode_steps)) eqn:Hend; simpl.
  - split; [|split; [lia|]].
    + apply Forall_app. split; [exact Hall|]. repeat constructor; lia.
    + rewrite !length_app, Hlen. reflexivity.
  - apply orb_false_iff in Hend as [_ Hne].
    split; [exact Hall|]. split; [lia|exact Hlen].
Qed.

Lemma loop_bounds (max_episode_steps : Z) (ticks : list (float * bool))
    (st : Episodes) :
  1 <= max_episode_steps ->
  Forall (fun n => 1 <= n <= max_episode_steps) (lengths st) /\
  0 <= ep_len st < max_episode_steps /\
  length (lengths st) = length (returns st) ->
  let st' := foldl (step max_episode_steps) st ticks in
  Forall (fun n => 1 <= n <= max_episode_steps) (lengths st') /\
  0 <= ep_len st' < max_episode_steps /\
  length (lengths st') = length (returns st').
Proof.
  intros Hmax. revert st.
  induction ticks as [|rd ticks IH]; intros st Hinv; simpl; [exact Hinv|].
  apply IH. apply step_bounds; assumption.
Qed.

(** For a positive step limit, every completed episode has between 1 and
    [max_episode_steps] steps, the incomplete one at the end has fewer than
    [max_episode_steps] (possibly none), and [lengths] has exactly one entry
    more than [returns]. *)
Theorem episode_length_bounds (rewards : list float) (terminals : list bool)
    (max_episode_steps : Z) :
  1 <= max_episode_steps ->
  exists completed last,
    lengths (episodes rewards terminals max_episode_steps)
    = completed ++ [last] /\
    Forall (fun n => 1 <= n <= max_episode_steps) completed /\
    0 <= last < max_episode_steps /\
    length completed
    = length (returns (episodes rewards terminals max_episode_steps)).
Proof.
  intros Hmax.
  pose proof (loop_bounds max_episode_steps (zip rewards terminals)
                (Minari.start float_zero) Hmax) as H.
  destruct H as (Hall & Hopen & Hlen).
  { simpl. split; [constructor|]. split; [lia|reflexivity]. }
  unfold Minari.episodes. simpl. eexists _, _.
  split; [reflexivity|]. split; [exact Hall|]. split; [exact Hopen|exact Hlen].
Qed.

(** [zip] stops at the shorter sequence, so the assertion of
    [return_range] fails exactly when there are fewer terminal flags than
    rewards. *)
Theorem return_range_assertion_fails_iff (rewards : list float)
    (terminals : list bool) (max_episode_steps : Z) :
  (exists msg,
     return_range rewards terminals max_episode_steps
     = Raise (AssertionError msg))
  <-> (length terminals < length rewards)%nat.
Proof.
  unfold Minari.return_range.
  rewrite (episodes_sum float_zero float_add rewards terminals).
  split.
  - intros [msg H].
    destruct (Z.of_nat (length rewards `min` length terminals)
              =? Z.of_nat (length rewards)) eqn:Heq;
      [|apply Z.eqb_neq in Heq; lia].
    simpl in H.
    destruct (py_min float_lt _) as [lo|e] eqn:Hmin; simpl in H.
    + destruct (py_max float_lt _) as [hi|e] eqn:Hmax; simpl in H;
        [discriminate|].
      unfold py_max in Hmax.
      destruct (returns _); [injection Hmax as <-|]; discriminate.
    + unfold py_min in Hmin.
      destruct (returns _); [injection Hmin as <-|]; discriminate.
  - intros Hlt. exists EmptyString.
    replace (Z.of_nat (length rewards `min` length terminals)
             =? Z.of_nat (length rewards)) with false
      by (symmetry; apply Z.eqb_neq; lia).
    reflexivity.
Qed.

(** Once an episode has been recorded, it stays recorded. *)
Lemma returns_stay (max_episode_steps : Z) (ticks : list (float * bool))
    (st : Episodes) :
  returns st <> [] ->
  returns (foldl (step max_episode_steps) st ticks) <> [].
Proof.
  revert st. induction ticks as [|rd ticks IH]; intros st Hne; simpl;
    [exact Hne|].
  apply IH. unfold Minari.step.
  destruct (rd.2 || _); simpl; [|exact Hne].
  destruct (returns st); discriminate.
Qed.

(** No episode is recorded exactly when no flag is set and the step
    counter never meets the limit. *)
Lemma loop_records_nothing (max_episode_steps : Z)
    (ticks : list (float * bool)) (st : Episodes) :
  returns st = [] ->
  returns (foldl (step max_episode_steps) st ticks) = [] <->
  Forall (fun rd => rd.2 = false) ticks /\
  forall j, 1 <= j <= Z.of_nat (length ticks) ->
            ep_len st + j <> max_episode_steps.
Proof.
  revert st. induction ticks as [|rd ticks IH]; intros st Hnil; simpl.
  - split; [|intros _; exact Hnil].
    intros _. split; [constructor|]. intros j Hj. lia.
  - destruct (rd.2 || (ep_len st + 1 =? max_episode_steps)) eqn:Hend.
    + split.
      * intros H. exfalso. revert H. apply returns_stay.
        unfold Minari.step. rewrite Hend. simpl.
        destruct (returns st); discriminate.
      * intros [Hall Hj]. exfalso.
        apply orb_true_iff in Hend as [Hd|Hm].
        -- inversion Hall as [|? ? Hrd _]; subst. congruence.
        -- apply (Hj 1); lia.
    + apply orb_false_iff in Hend as [Hd Hm].
      assert (Hst : step max_episode_steps st rd
                    = {| returns := returns st; lengths := lengths st;
                         ep_ret := float_add (ep_ret st) rd.1;
                         ep_len := ep_len st + 1 |}).
      { unfold Minari.step. rewrite Hd, Hm. reflexivity. }
      rewrite Hst, IH by exact Hnil. simpl. split.
      * intros [Hall Hj]. split; [constructor; assumption|].
        intros j Hjr. destruct (decide (j = 1)) as [->|Hne]; [lia|].
        specialize (Hj (j - 1)). lia.
      * intros [Hall Hj]. inversion Hall; subst. split; [assumption|].
        intros j Hjr. specialize (Hj (j + 1)). lia.
Qed.

Lemma py_min_member (xs : list float) (m : float) :
  py_min float_lt xs = Ok m -> In m xs.
Proof.
  destruct xs as [|x rest]; [discriminate|]. simpl. intros [= <-].
  revert x. induction rest as [|y rest IH]; intros x; simpl; [auto|].
  destruct (IH (if float_lt y x then y else x)) as [H|H]; [|auto].
  destruct (float_lt y x); auto.
Qed.

Lemma py_max_member (xs : list float) (m : float) :
  py_max float_lt xs = Ok m -> In m xs.
Proof.
  destruct xs as [|x rest]; [discriminate|]. simpl. intros [= <-].
  revert x. induction rest as [|y rest IH]; intros x; simpl; [auto|].
  destruct (IH (if float_lt x y then y else x)) as [H|H]; [|auto].
  destruct (float_lt x y); auto.
Qed.

Lemma returns_empty_iff (rewards : list float) (terminals : list bool)
    (max_episode_steps : Z) :
  length rewards = length terminals ->
  returns (episodes rewards terminals max_episode_steps) = [] <->
  Forall (fun d => d = false) terminals /\
  (Z.of_nat (length rewards) < max_episode_steps \/ max_episode_steps <= 0).
Proof.
  intros Hlen.
  pose proof (loop_records_nothing max_episode_steps (zip rewards terminals)
                (Minari.start float_zero) eq_refl) as Hloop.
  simpl in Hloop. rewrite length_zip_with in Hloop.
  unfold Minari.episodes. simpl. rewrite Hloop. split.
  - intros [Hall Hj]. split.
    + rewrite <- (snd_zip rewards terminals) by lia.
      apply Forall_fmap. exact Hall.
    + destruct (decide (1 <= max_episode_steps
                        <= Z.of_nat (length rewards))) as [Hin|Hout];
        [|lia].
      exfalso. apply (Hj max_episode_steps); lia.
  - intros [Hall Hmax]. split.
    + rewrite <- (snd_zip rewards terminals) in Hall by lia.
      apply Forall_fmap in Hall. exact Hall.
    + intros j Hj. lia.
Qed.

Lemma assertion_passes (rewards : list float) (terminals : list bool)
    (max_episode_steps : Z) :
  length rewards = length terminals ->
  (Minari.sum (lengths (episodes rewards terminals max_episode_steps))
   =? Z.of_nat (length rewards)) = true.
Proof.
  intros Hlen. rewrite (episodes_sum float_zero float_add).
  apply Z.eqb_eq. lia.
Qed.

Lemma return_range_without_episode (rewards : list float)
    (terminals : list bool) (max_episode_steps : Z) :
  length rewards = length terminals ->
  returns (episodes rewards terminals max_episode_steps) = [] ->
  return_range rewards terminals max_episode_steps = Raise ValueError.
Proof.
  intros Hlen Hnil. unfold Minari.return_range. cbv zeta.
  rewrite (assertion_passes _ _ _ Hlen), Hnil. reflexivity.
Qed.

(** On rewards and flags of one length, [return_range] raises
    [ValueError], from [min] of an empty list, exactly when no flag is set
    and the data ends before the step limit is met (an empty dataset
    included); in every other case it returns two returns of completed
    episodes. *)
Theorem return_range_needs_an_episode (rewards : list float)
    (terminals : list bool) (max_episode_steps : Z) :
  length rewards = length terminals ->
  let nothing_completes :=
    Forall (fun d => d = false) terminals /\
    (Z.of_nat (length rewards) < max_episode_steps \/ max_episode_steps <= 0) in
  (return_range rewards terminals max_episode_steps = Raise ValueError
   <-> nothing_completes) /\
  (~ nothing_completes ->
   exists lo hi,
     return_range rewards terminals max_episode_steps = Ok (lo, hi) /\
     In lo (returns (episodes rewards terminals max_episode_steps)) /\
     In hi (returns (episodes rewards terminals max_episode_steps))).
Proof.
  intros Hlen. cbv zeta.
  pose proof (returns_empty_iff rewards terminals max_episode_steps Hlen)
    as Hcond.
  unfold Minari.return_range. cbv zeta.
  rewrite (assertion_passes _ _ _ Hlen), <- Hcond.
  destruct (returns (episodes rewards terminals max_episode_steps))
    as [|x rest] eqn:Hret.
  - simpl. split; [tauto|]. intros H. exfalso. apply H. reflexivity.
  - assert (Hmin : exists lo, py_min float_lt (x :: rest) = Ok lo)
      by (eexists; reflexivity).
    assert (Hmax : exists hi, py_max float_lt (x :: rest) = Ok hi)
      by (eexists; reflexivity).
    destruct Hmin as [lo Hmin], Hmax as [hi Hmax].
    rewrite Hmin, Hmax. simpl. split.
    + split; [discriminate|discriminate].
    + intros _. exists lo, hi. split; [reflexivity|].
      split; [exact (py_min_member _ _ Hmin)|exact (py_max_member _ _ Hmax)].
Qed.

End ReturnRangeMore.

Lemma episode_length_bounds_witness :
  Minari.lengths
    (Minari.episodes 0 Z.add Examples.ex_rewards Examples.ex_terminals 2)
  = [2; 2; 1] /\
  exists completed last,
    Minari.lengths
      (Minari.episodes 0 Z.add Examples.ex_rewards Examples.ex_terminals 2)
    = completed ++ [last] /\
    Forall (fun n => 1 <= n <= 2) completed /\ 0 <= last < 2.
Proof.
  split; [reflexivity|].
  destruct (episode_length_bounds 0 Z.add Examples.ex_rewards
              Examples.ex_terminals 2 ltac:(lia))
    as (completed & last & Heq & Hall & Hlast & _).
  exists completed, last. auto.
Defined.

Lemma return_range_needs_an_episode_witness :
  Minari.return_range 0 Z.add Z.ltb [] [] 1000 = Raise ValueError /\
  Minari.return_range 0 Z.add Z.ltb [1; 2; 3] [false; false; false] 1000
  = Raise ValueError.
Proof.
  split.
  - destruct (return_range_needs_an_episode 0 Z.add Z.ltb [] [] 1000 eq_refl)
      as [[_ H] _].
    apply H. split; [constructor|left; simpl; lia].
  - destruct (return_range_needs_an_episode 0 Z.add Z.ltb [1; 2; 3]
                [false; false; false] 1000 eq_refl) as [[_ H] _].
    apply H. split; [repeat constructor|left; simpl; lia].
Defined.

(** ** [MinariDataset.__getitem__]: any integer index, empty datasets *)

Section DatasetMore.
Import Torch Minari.
Context {scalar : Type}.

Local Abbreviation Tensor := (@Tensor scalar).
Local Abbreviation MinariDataset := (@MinariDataset scalar).
Local Abbreviation Value := (@Value scalar).

Lemma py_mod_periodic (index k n : Z) :
  py_mod (index + k * n) n = py_mod index n.
Proof.
  unfold py_mod. destruct (n =? 0) eqn:Hn; [reflexivity|].
  rewrite Z.mod_add by lia. reflexivity.
Qed.

(** Shifting the index by any multiple of the length, forwards or
    backwards, gives the same result, whatever the dataset holds (the same
    exception on a dataset on which the lookup fails). *)
Theorem getitem_periodic (self : MinariDataset) (index k : Z) :
  __getitem__ self (index + k * __len__ self) = __getitem__ self index.
Proof.
  unfold __getitem__, __len__, at_index_or_zero, at_index.
  rewrite py_mod_periodic. reflexivity.
Qed.

(** Negative indices count from the end: index [-j], for [j] between 1
    and the length, is answered with the entries at position [len - j]. *)
Theorem getitem_negative_index (self : MinariDataset) (j : Z) :
  consistent self -> 1 <= j <= __len__ self ->
  exists item : gmap string Value,
    let i := __len__ self - j in
    __getitem__ self (- j) = Ok item /\
    item !! "s" = Some (VTensor (entry (states self) i)) /\
    item !! "a" = Some (VTensor (entry (actions self) i)) /\
    item !! "r" = Some (VTensor (entry (rewards self) i)) /\
    item !! "s_" = Some (VTensor (entry (next_states self) i)) /\
    item !! "d" = Some (VTensor (entry (is_finished self) i)) /\
    item !! "fake_a" = Some (entry_or_zero (fake_actions self) i) /\
    item !! "fake_a_" = Some (entry_or_zero (fake_next_actions self) i).
Proof.
  unfold __len__.
  intros (Hs & Ha & Hn & Hr & Hd & Hf & Hf') Hj.
  assert (Hlen : 0 < len self) by lia.
  assert (Hmod : - j mod len self = len self - j).
  { symmetry. apply (Z.mod_unique_pos _ _ (-1)); lia. }
  eexists. cbv zeta. split.
  { unfold __getitem__.
    rewrite !at_index_in_range by assumption. simpl.
    rewrite !at_index_or_zero_in_range by assumption. simpl.
    rewrite Hmod. reflexivity. }
  repeat split; simplify_map_eq; reflexivity.
Qed.

(** On a dataset without transitions every lookup raises
    [ZeroDivisionError], from [index % self.len]. *)
Theorem getitem_empty_dataset (self : MinariDataset) (index : Z) :
  __len__ self = 0 -> __getitem__ self index = Raise ZeroDivisionError.
Proof.
  unfold __len__, __getitem__, at_index, py_mod. intros ->. reflexivity.
Qed.

End DatasetMore.

Lemma getitem_negative_index_witness :
  exists item : gmap string Minari.Value,
    Minari.__getitem__ Examples.ex_dataset (-1) = Ok item /\
    item !! "s"
    = Some (Minari.VTensor {| Torch.shape := [1]; Torch.data := [12] |}).
Proof.
  assert (Hc : Minari.consistent Examples.ex_dataset).
  { repeat split; try reflexivity; intros t Ht; discriminate Ht. }
  destruct (getitem_negative_index Examples.ex_dataset 1 Hc
              ltac:(simpl; lia)) as (item & Hitem & Hs & _).
  exists item. split; [exact Hitem|exact Hs].
Defined.

Lemma getitem_empty_dataset_witness :
  Minari.__getitem__ Examples.ex_empty_dataset 0 = Raise ZeroDivisionError.
Proof. exact (getitem_empty_dataset Examples.ex_empty_dataset 0 eq_refl). Defined.

(** ** The reward schemes of [MinariDataset.__init__] *)

Section RewardTuningFacts.
Import Minari.
Context {float : Type}.
Variable float_zero : float.
Variable float_add : float -> float -> float.
Variable float_lt : float -> float -> bool.
Variable float_sub : float -> float -> float.
Variable float_mul : float -> float -> float.
Variable float_div : float -> float -> float.
Variable float_mean : list float -> float.
Variable float_std : list float -> float.
Variable literal : string -> float.

Local Abbreviation tune_reward :=
  (Minari.tune_reward float_zero float_add float_lt float_sub float_mul
     float_div float_mean float_std literal).
Local Abbreviation return_range :=
  (Minari.return_range float_zero float_add float_lt).

(** Only two of the five reward schemes can be selected.  A dataset whose
    id contains [antmaze] has 1.0 subtracted from every reward and
    [return_range] is not consulted; every other dataset has its rewards
    divided by the return range over episodes of at most 1000 steps and
    multiplied by 1000, and fails when [return_range] fails. *)
Theorem tune_reward_schemes (env_id : string) (reward : list float)
    (terminals : list bool) :
  (contains "antmaze" env_id = true ->
   tune_reward env_id reward terminals
   = Ok ((fun r => float_sub r (literal "1.0")) <$> reward)) /\
  (contains "antmaze" env_id = false ->
   tune_reward env_id reward terminals
   = bind (return_range reward terminals 1000) (fun range =>
       Ok ((fun r => float_mul r (literal "1000")) <$>
           ((fun r => float_div r (float_sub range.2 range.1)) <$> reward)))).
Proof.
  unfold Minari.tune_reward, reward_tune.
  split; intros ->; reflexivity.
Qed.

(** Loading a dataset whose id does not contain [antmaze], with fewer than
    1000 transitions and no terminal flag set, fails with [ValueError]: no
    episode is complete, so [return_range] has no return to take the minimum
    of. *)
Theorem tune_reward_without_episode (env_id : string) (reward : list float)
    (terminals : list bool) :
  contains "antmaze" env_id = false ->
  length reward = length terminals ->
  Forall (fun d => d = false) terminals ->
  Z.of_nat (length reward) < 1000 ->
  tune_reward env_id reward terminals = Raise ValueError.
Proof.
  intros Henv Hlen Hall Hshort.
  unfold Minari.tune_reward, reward_tune. rewrite Henv.
  change (String.eqb "iql_locomotion" "normalize") with false.
  change (String.eqb "iql_locomotion" "iql_antmaze") with false.
  change (String.eqb "iql_locomotion" "iql_locomotion") with true.
  cbv iota.
  rewrite (return_range_without_episode float_zero float_add float_lt
             reward terminals 1000 Hlen); [reflexivity|].
  apply (returns_empty_iff float_zero float_add reward terminals 1000 Hlen).
  split; [exact Hall|left; exact Hshort].
Qed.

End RewardTuningFacts.

Lemma tune_reward_schemes_witness :
  Examples.ex_tune_reward "antmaze-umaze-v0" [1; 0; 1] [false; false; true]
  = Ok [0; -1; 0] /\
  Examples.ex_tune_reward "hopper-medium-v2" [4; 2; 6; 2]
    [false; true; false; true]
  = Ok [2000; 1000; 3000; 1000].
Proof.
  split.
  - destruct (tune_reward_schemes 0 Z.add Z.ltb Z.sub Z.mul Z.div
                (fun _ => 0) (fun _ => 1) Examples.ex_literal
                "antmaze-umaze-v0" [1; 0; 1] [false; false; true])
      as [H _].
    unfold Examples.ex_tune_reward. rewrite (H eq_refl). reflexivity.
  - destruct (tune_reward_schemes 0 Z.add Z.ltb Z.sub Z.mul Z.div
                (fun _ => 0) (fun _ => 1) Examples.ex_literal
                "hopper-medium-v2" [4; 2; 6; 2] [false; true; false; true])
      as [_ H].
    unfold Examples.ex_tune_reward. rewrite (H eq_refl). reflexivity.
Defined.

Lemma tune_reward_without_episode_witness :
  Examples.ex_tune_reward "hopper-medium-v2" [3; 1; 2] [false; false; false]
  = Raise ValueError.
Proof.
  apply (tune_reward_without_episode 0 Z.add Z.ltb Z.sub Z.mul Z.div
           (fun _ => 0) (fun _ => 1) Examples.ex_literal
           "hopper-medium-v2" [3; 1; 2] [false; false; false]);
    [reflexivity|reflexivity|repeat constructor|simpl; lia].
Defined.

(** ** The further properties of [FlowModel] on concrete calls *)

Lemma solver_called_at_most_once_witness :
  exists calls,
    Flow.integrate_calls
      (Flow.sample_forward_process Examples.ex_find_parameters
         Examples.ex_get_solver Examples.ode_model
         (Examples.ex_args None (Some Examples.ex_x0)
            (Some Examples.ex_condition2) false) Examples.ex_world).1
    = Flow.integrate_calls Examples.ex_world ++ calls /\
    calls = [].
Proof.
  destruct (solver_called_at_most_once Examples.ex_find_parameters
              Examples.ex_get_solver Examples.ode_model
              (Examples.ex_args None (Some Examples.ex_x0)
                 (Some Examples.ex_condition2) false) Examples.ex_world)
    as (calls & Hlog & _ & _ & Hnone).
  exists calls. split; [exact Hlog|]. eapply Hnone. reflexivity.
Defined.

Lemma unsupported_solver_kind_witness :
  Flow.sample_forward_process Examples.ex_find_parameters
    Examples.ex_registry Examples.ode_model
    (Examples.ex_args_with_solver Examples.sde_config) Examples.ex_world
  = (Examples.ex_world,
     Raise (NotImplementedError "Solver type ODESolver is not implemented")) /\
  Flow.sample_forward_process Examples.ex_find_parameters
    Examples.ex_registry (Examples.ex_model None None)
    (Examples.ex_args_with_solver Examples.sde_config) Examples.ex_world
  = (Examples.ex_world, Raise (AttributeError "solver")).
Proof.
  split.
  - destruct (Flow.prepare Examples.ex_registry Examples.ode_model
                (Examples.ex_args_with_solver Examples.sde_config))
      as [p|e] eqn:Hp; [|discriminate Hp].
    rewrite (unsupported_solver_kind Examples.ex_find_parameters
               Examples.ex_registry Examples.ode_model _ Examples.ex_world p
               Hp); [reflexivity|].
    vm_compute in Hp. injection Hp as <-. reflexivity.
  - destruct (Flow.prepare Examples.ex_registry (Examples.ex_model None None)
                (Examples.ex_args_with_solver Examples.sde_config))
      as [p|e] eqn:Hp; [|discriminate Hp].
    rewrite (unsupported_solver_kind Examples.ex_find_parameters
               Examples.ex_registry (Examples.ex_model None None) _
               Examples.ex_world p Hp); [reflexivity|].
    vm_compute in Hp. injection Hp as <-. reflexivity.
Defined.

Lemma x_0_shape_is_validated_witness :
  Flow.sample_forward_process Examples.ex_find_parameters
    Examples.ex_get_solver Examples.ode_model
    (Examples.ex_args None (Some Examples.ex_x0_wide) None false)
    Examples.ex_world
  = (Examples.ex_world,
     Raise (AssertionError
              "The shape of x_0 must be the same as the x_size that is specified in the config")).
Proof.
  apply (x_0_shape_is_validated Examples.ex_find_parameters
           Examples.ex_get_solver Examples.ode_model
           (Examples.ex_args None (Some Examples.ex_x0_wide) None false)
           Examples.ex_world (Torch.tensor [1]) 3 Examples.ex_ode_solver
           Examples.ex_x0_wide 3 [5] eq_refl eq_refl eq_refl eq_refl eq_refl
           ltac:(lia)).
  simpl. discriminate.
Defined.

Lemma invalid_x_size_found_after_integration_witness :
  exists call,
    Flow.sample_forward_process Examples.ex_find_parameters
      Examples.ex_get_solver Examples.ex_tree_model
      (Examples.ex_args None None None false) Examples.ex_world
    = ({| Flow.grad_enabled := true; Flow.integrate_calls := [call] |},
       Raise (AssertionError "Invalid x_size")).
Proof.
  destruct (Flow.prepare Examples.ex_get_solver Examples.ex_tree_model
              (Examples.ex_args None None None false)) as [p|e] eqn:Hp;
    [|discriminate Hp].
  eexists.
  destruct (invalid_x_size_found_after_integration
              Examples.ex_find_parameters Examples.ex_get_solver
              Examples.ex_tree_model (Examples.ex_args None None None false)
              Examples.ex_world p
              {| Torch.shape := 2 :: Torch.shape (Flow.p_x p);
                 Torch.data := Torch.data (Flow.p_x p)
                               ++ Torch.data (Flow.p_x p) |} Hp)
    as [_ H].
  - vm_compute in Hp. injection Hp as <-. reflexivity.
  - reflexivity.
  - vm_compute in Hp. injection Hp as <-. reflexivity.
  - rewrite H. vm_compute in Hp. injection Hp as <-. reflexivity.
Defined.

Lemma unsupported_result_after_integration_witness :
  exists call,
    Flow.sample_forward_process Examples.ex_find_parameters
      Examples.ex_get_solver
      (Examples.ex_model (Some Examples.ode_config)
         (Some Examples.ex_tensordict_solver))
      (Examples.ex_args None None None false) Examples.ex_world
    = ({| Flow.grad_enabled := true; Flow.integrate_calls := [call] |},
       Raise (NotImplementedError "Not implemented")).
Proof.
  destruct (Flow.prepare Examples.ex_get_solver
              (Examples.ex_model (Some Examples.ode_config)
                 (Some Examples.ex_tensordict_solver))
              (Examples.ex_args None None None false)) as [p|e] eqn:Hp;
    [|discriminate Hp].
  eexists.
  rewrite (unsupported_result_after_integration
             Examples.ex_find_parameters Examples.ex_get_solver _ _
             Examples.ex_world p Flow.DTensorDict Hp).
  - vm_compute in Hp. injection Hp as <-. reflexivity.
  - vm_compute in Hp. injection Hp as <-. reflexivity.
  - vm_compute in Hp. injection Hp as <-. reflexivity.
  - left. reflexivity.
Defined.

Lemma sampler_unused_with_x_0_witness :
  Flow.sample_forward_process Examples.ex_find_parameters
    Examples.ex_get_solver
    (Flow.with_gaussian_generator Examples.ode_model
       (fun _ => Raise TypeError))
    (Examples.ex_args None (Some Examples.ex_x0) None false) Examples.ex_world
  = Flow.sample_forward_process Examples.ex_find_parameters
      Examples.ex_get_solver Examples.ode_model
      (Examples.ex_args None (Some Examples.ex_x0) None false)
      Examples.ex_world.
Proof.
  exact (sampler_unused_with_x_0 Examples.ex_find_parameters
           Examples.ex_get_solver Examples.ode_model
           (Examples.ex_args None (Some Examples.ex_x0) None false)
           Examples.ex_world Examples.ex_x0 (fun _ => Raise TypeError)
           eq_refl).
Defined.

Lemma configured_solver_is_default_witness :
  (exists s,
     Examples.ex_get_solver Examples.ode_config = Ok s /\
     Flow.solver Examples.ode_model = Some s /\
     Flow.select_solver Examples.ex_get_solver Examples.ode_model None
     = Ok s) /\
  Flow.__init__ Examples.ex_get_solver Examples.ex_gaussian_random_variable
    Examples.ex_intrinsic_model (Examples.ex_config (Some Examples.sde_config))
  = Raise (KeyError "SDESolver").
Proof.
  split.
  - destruct (configured_solver_is_default Examples.ex_get_solver
                Examples.ex_gaussian_random_variable
                Examples.ex_intrinsic_model
                (Examples.ex_config (Some Examples.ode_config))
                Examples.ode_config eq_refl) as [H _].
    exact (H Examples.ode_model eq_refl).
  - destruct (configured_solver_is_default Examples.ex_get_solver
                Examples.ex_gaussian_random_variable
                Examples.ex_intrinsic_model
                (Examples.ex_config (Some Examples.sde_config))
                Examples.sde_config eq_refl) as [_ H].
    destruct (H (KeyError "SDESolver") eq_refl) as [_ Hraise].
    exact (Hraise _ _ eq_refl eq_refl).
Defined.






Lemma tree_result_needs_mapping_witness :
  Flow.inverse_composition Examples.ode_model
    (Examples.ex_args None None None false) Examples.ex_prepared
    (Flow.DTreeTensor Examples.ex_tree_fields) = Raise TypeError.
Proof.
  destruct (tree_result_needs_mapping Examples.ode_model
              (Examples.ex_args None None None false) Examples.ex_prepared
              Examples.ex_tree_fields) as (_ & H & _).
  eapply H; reflexivity.
Defined.

Lemma structured_solver_unusable_after_init_witness :
  Flow.sample_forward_process Examples.ex_find_parameters
    Examples.ex_get_solver Examples.dict_model
    (Examples.ex_args None None None true) Examples.ex_world
  = (Examples.ex_world, Raise (AttributeError "diffusion_process")).
Proof.
  destruct (Flow.prepare Examples.ex_get_solver Examples.dict_model
              (Examples.ex_args None None None true)) as [p|e] eqn:Hp;
    [|discriminate Hp].
  apply (structured_solver_unusable_after_init Examples.ex_find_parameters
           Examples.ex_get_solver Examples.ex_gaussian_random_variable
           Examples.ex_intrinsic_model
           (Examples.ex_config (Some Examples.dict_config))
           Examples.dict_model (Examples.ex_args None None None true)
           Examples.ex_world p eq_refl Hp).
  vm_compute in Hp. injection Hp as <-. reflexivity.
Defined.

Lemma empty_x_0_rejected_witness :
  Flow.sample_forward_process Examples.ex_find_parameters
    Examples.ex_get_solver Examples.ode_model
    (Examples.ex_args None (Some Examples.ex_x0_empty) None false)
    Examples.ex_world
  = (Examples.ex_world, Raise IndexError).
Proof.
  destruct (empty_x_0_rejected Examples.ex_find_parameters
              Examples.ex_get_solver Examples.ode_model
              (Examples.ex_args None (Some Examples.ex_x0_empty) None false)
              Examples.ex_world (Torch.tensor [1]) 0 Examples.ex_ode_solver
              Examples.ex_x0_empty [4] eq_refl eq_refl eq_refl eq_refl
              eq_refl ltac:(discriminate)) as [_ H].
  exact H.
Defined.

Lemma tree_fields_shapes_witness :
  exists p fields',
    Flow.prepare Examples.ex_get_solver Examples.ex_tree_model
      (Examples.ex_args None None None false) = Ok p /\
    Flow.inverse_composition Examples.ex_tree_model
      (Examples.ex_args None None None false) p
      (Flow.DTreeTensor Examples.ex_tree_fields)
    = Ok (Flow.DTreeTensor fields') /\
    (Torch.shape <$> (snd <$> fields')) = [[2; 4]; [2; 2]].
Proof.
  destruct (Flow.prepare Examples.ex_get_solver Examples.ex_tree_model
              (Examples.ex_args None None None false)) as [p|e] eqn:Hp;
    [|discriminate Hp].
  destruct (tree_fields_shapes Examples.ex_get_solver Examples.ex_tree_model
              (Examples.ex_args None None None false) p
              Examples.ex_tree_x_size Examples.ex_tree_fields 2 eq_refl Hp
              (or_introl eq_refl))
    as (fields' & Hrun & Hall).
  - vm_compute in Hp. injection Hp as <-. simpl. lia.
  - lia.
  - vm_compute in Hp. injection Hp as <-.
    repeat constructor.
    + exists 4. split; [reflexivity|]. split; [lia|reflexivity].
    + exists 2. split; [reflexivity|]. split; [lia|reflexivity].
  - exists p, fields'. split; [reflexivity|]. split; [exact Hrun|].
    inversion Hall as [|? [k1 t1] ? rest1 [_ (d1 & Hk1 & Hs1)] Hall1]; subst.
    inversion Hall1 as [|? [k2 t2] ? rest2 [_ (d2 & Hk2 & Hs2)] Hall2]; subst.
    inversion Hall2; subst. simpl in *.
    vm_compute in Hk1. injection Hk1 as <-.
    vm_compute in Hk2. injection Hk2 as <-.
    rewrite Hs1, Hs2. reflexivity.
Defined.
